(** * Particle simulator: grid population, single insertion and view transform

    A shallow embedding of [SimulationSystem] (src/physics/SimulationSystem.cpp)
    and of the frame loop's fixed-step clock (src/Application.cpp).

    Number models.  The C++ code computes on [float] and [glm::vec2].  The
    code is embedded twice.

    - At top level a [float] is an exact rational ([Q]): every operation
      returns the real result, without rounding, overflow to infinity or NaN.
      This model carries the statements that follow the control flow and the
      shape of the store: which paths return early, how many particles a
      call appends and in which order, which members a call leaves alone.
    - In module [F32] a [float] is a binary32 value ([spec_float] at
      precision 24, maximal exponent 128) and every operation is the IEEE 754
      one, rounded to nearest with ties to even.  This model carries every
      statement about a computed number: the footprint, the capacity, the
      spacing, the stored coordinates and the entries of the view matrix.

    An [int] is a [Z]; the only [int] product of the code ([rows * cols]) is
    written with its 32-bit two's complement wrap-around. *)

From Stdlib Require Import ZArith QArith Qabs Qround Qminmax Lqa Lia List Bool.
From Stdlib Require Strings.String.
From Stdlib Require Import Qpower Floats.SpecFloat.
Import ListNotations.
Import Stdlib.Strings.String.StringSyntax.
Delimit Scope string_scope with string.

Local Open Scope Z_scope.
Local Open Scope Q_scope.

(** ** Scalars *)

(** [a < b] on floats, as a boolean. *)
Definition Qltb (a b : Q) : bool := negb (Qle_bool b a).

(** [int] to [float] conversion. *)
Definition to_float (n : Z) : Q := inject_Z n.

(** 32-bit signed wrap-around of an [int] result. *)
Definition int_wrap (z : Z) : Z := ((z + 2 ^ 31) mod 2 ^ 32 - 2 ^ 31)%Z.

Definition int_mul (a b : Z) : Z := int_wrap (a * b).


(** ** The part of GLM the code uses

    GLM is an external library; each operation is given by its GLM
    definition on exact numbers. *)

Module glm.

Record vec2 : Type := mkvec2 { x : Q; y : Q }.

(** [glm::vec2(s)]: both components set to the scalar. *)
Definition splat (s : Q) : vec2 := mkvec2 s s.

Definition add (a b : vec2) : vec2 := mkvec2 (x a + x b) (y a + y b).
Definition sub (a b : vec2) : vec2 := mkvec2 (x a - x b) (y a - y b).
Definition scale (a : vec2) (s : Q) : vec2 := mkvec2 (x a * s) (y a * s).

(** Scalar [glm::max(a, b)] is [(a < b) ? b : a], [glm::min(a, b)] is
    [(b < a) ? b : a]; on vectors they act componentwise. *)
Definition fmax (a b : Q) : Q := if Qltb a b then b else a.
Definition fmin (a b : Q) : Q := if Qltb b a then b else a.
Definition max (a b : vec2) : vec2 := mkvec2 (fmax (x a) (x b)) (fmax (y a) (y b)).
Definition min (a b : vec2) : vec2 := mkvec2 (fmin (x a) (x b)) (fmin (y a) (y b)).

Record vec4 : Type := mkvec4 { x4 : Q; y4 : Q; z4 : Q; w4 : Q }.

(** A [glm::mat4] is stored by columns: [M[c][r]] is component [r] of
    column [c]. *)
Record mat4 : Type := mkmat4 { col0 : vec4; col1 : vec4; col2 : vec4; col3 : vec4 }.

(** Modelled from the spec: GLM is an external library, not among the
    sources.  [glm::ortho(left, right, bottom, top, zNear, zFar)] is the
    orthographic projection matrix of that box, as GLM builds it in its
    default configuration (right-handed, clip depth -1..1): the identity
    matrix with the six entries below overwritten. *)
Definition ortho (left right bottom top zNear zFar : Q) : mat4 :=
  mkmat4
    (mkvec4 (2 / (right - left)) 0 0 0)
    (mkvec4 0 (2 / (top - bottom)) 0 0)
    (mkvec4 0 0 (- (2) / (zFar - zNear)) 0)
    (mkvec4 (- (right + left) / (right - left))
            (- (top + bottom) / (top - bottom))
            (- (zFar + zNear) / (zFar - zNear))
            1).

End glm.

(** ** Simulation state *)

(** A particle as [Particle(position, mass)] builds it.  The struct is
    declared in a header outside the sources at hand; only the two fields the
    constructor call fixes are kept. *)
Record Particle : Type := mkParticle {
  position : glm.vec2;
  mass : Q
}.

(** The members of [SimulationSystem] that SimulationSystem.cpp reads or
    writes.  The class is declared in a header outside the sources at hand,
    so the declared type of [m_ParticleRadius] is not known: the member is
    taken as the number it denotes wherever the code reads it.  The
    constructor only ever stores a non-negative whole number in it. *)
Record SimulationSystem : Type := mkSimulationSystem {
  m_bottomLeft : glm.vec2;
  m_topRight : glm.vec2;
  m_ParticleRadius : Q;
  m_Zoom : Q;
  m_WindowWidth : Z;
  m_SimHeight : Q;
  m_SimWidth : Q;
  m_Particles : list Particle
}.

(** The constructor: [particleRadius] is an [unsigned int]. *)
Definition SimulationSystem_init (bottomLeft topRight : glm.vec2) (particleRadius : N)
  : SimulationSystem :=
  mkSimulationSystem bottomLeft topRight (to_float (Z.of_N particleRadius))
    1 800
    (Qabs (glm.y topRight - glm.y bottomLeft))
    (Qabs (glm.x topRight - glm.x bottomLeft))
    [].

(** The system with its particle vector replaced, every other member kept. *)
Definition set_Particles (sim : SimulationSystem) (ps : list Particle) : SimulationSystem :=
  mkSimulationSystem (m_bottomLeft sim) (m_topRight sim) (m_ParticleRadius sim)
    (m_Zoom sim) (m_WindowWidth sim) (m_SimHeight sim) (m_SimWidth sim) ps.

(** [m_Particles.push_back(p)]. *)
Definition push_back (sim : SimulationSystem) (p : Particle) : SimulationSystem :=
  set_Particles sim (m_Particles sim ++ [p]).

(** [SimulationSystem::AddParticle]. *)
Definition AddParticle (sim : SimulationSystem) (position : glm.vec2) (mass : Q)
  : SimulationSystem :=
  let newParticle := mkParticle position mass in
  push_back sim newParticle.

(** ** Console output of [AddParticleGrid]

    One constructor per line written to [std::cerr] ([Err...]) or
    [std::cout] ([Out...]), with the values it prints. *)
Inductive Message : Type :=
  | ErrNotPositive (rows cols : Z)
  | ErrNoSpace
  | ErrNotFit (rows cols : Z) (radius : Q) (spacing required available : glm.vec2)
  | OutAvailable (availableSpace : glm.vec2)
  | ErrTooMany
  | ErrOverlap (finalSpacing : glm.vec2) (minRequiredSpacing : Q)
  | OutCreated (rows cols : Z).

Definition is_error (m : Message) : bool :=
  match m with
  | ErrNotPositive _ _ | ErrNoSpace | ErrNotFit _ _ _ _ _ _ | ErrTooMany
  | ErrOverlap _ _ => true
  | OutAvailable _ | OutCreated _ _ => false
  end.

Definition is_created (m : Message) : bool :=
  match m with
  | OutCreated _ _ => true
  | _ => false
  end.

(** ** The locals of [AddParticleGrid], in the order the code computes them *)

Section GridLocals.

Variable sim : SimulationSystem.
Variables rows cols : Z.
Variables bottomLeft topRight spacing : glm.vec2.

Let radius : Q := m_ParticleRadius sim.

Definition gridBottomLeft : glm.vec2 :=
  glm.max bottomLeft (glm.add (m_bottomLeft sim) (glm.splat radius)).

Definition gridTopRight : glm.vec2 :=
  glm.min topRight (glm.sub (m_topRight sim) (glm.splat radius)).

Definition requiredWidth : Q :=
  let requiredWidth := to_float cols * (2 * radius) in
  if (1 <? cols)%Z
  then requiredWidth + to_float (cols - 1) * glm.x spacing
  else requiredWidth.

Definition requiredHeight : Q :=
  let requiredHeight := to_float rows * (2 * radius) in
  if (1 <? rows)%Z
  then requiredHeight + to_float (rows - 1) * glm.y spacing
  else requiredHeight.

Definition availableSpace : glm.vec2 := glm.sub gridTopRight gridBottomLeft.

(** The capacity test
    [(availableSpace.y / (2 r)) * (availableSpace.x / (2 r)) < rows * cols].
    It is evaluated only after both components of [availableSpace] were
    found positive, so with [2 r = 0] each quotient is the IEEE [+inf],
    their product is [+inf], and the comparison is false. *)
Definition tooManyParticles : bool :=
  if Qeq_bool (2 * radius) 0 then false
  else Qltb ((glm.y availableSpace / (2 * radius)) * (glm.x availableSpace / (2 * radius)))
            (to_float (int_mul rows cols)).

Definition finalSpacing : glm.vec2 :=
  glm.mkvec2
    (if (cols =? 1)%Z then 0
     else if Qltb 0 (glm.x spacing) then glm.x spacing
          else glm.x availableSpace / to_float (cols - 1))
    (if (rows =? 1)%Z then 0
     else if Qltb 0 (glm.y spacing) then glm.y spacing
          else glm.y availableSpace / to_float (rows - 1)).

Definition minRequiredSpacing : Q := 2 * radius.

Definition gridSize : glm.vec2 :=
  glm.mkvec2 (glm.x finalSpacing * to_float (cols - 1))
             (glm.y finalSpacing * to_float (rows - 1)).

Definition startPos : glm.vec2 :=
  glm.mkvec2
    (if Qltb (glm.x gridSize) (glm.x availableSpace)
     then glm.x gridBottomLeft + (glm.x availableSpace - glm.x gridSize) / 2
     else glm.x gridBottomLeft)
    (if Qltb (glm.y gridSize) (glm.y availableSpace)
     then glm.y gridBottomLeft + (glm.y availableSpace - glm.y gridSize) / 2
     else glm.y gridBottomLeft).

(** The position the loop body computes for [(row, col)]. *)
Definition cellPosition (row col : Z) : glm.vec2 :=
  glm.add startPos
    (glm.mkvec2 (to_float col * glm.x finalSpacing) (to_float row * glm.y finalSpacing)).

End GridLocals.

(** ** The two nested loops *)

(** [for (col = col0; ...; col++) AddParticle(position, mass)], [n] iterations. *)
Fixpoint fillColumns (n : nat) (col : Z) (pos : Z -> glm.vec2) (mass : Q)
    (sim : SimulationSystem) : SimulationSystem :=
  match n with
  | O => sim
  | S n' => fillColumns n' (col + 1)%Z pos mass (AddParticle sim (pos col) mass)
  end.

(** [for (row = row0; ...; row++) { inner loop }], [n] iterations; the inner
    loop runs while [col < cols], from [col = 0]. *)
Fixpoint fillRows (n : nat) (row : Z) (cols : Z) (pos : Z -> Z -> glm.vec2) (mass : Q)
    (sim : SimulationSystem) : SimulationSystem :=
  match n with
  | O => sim
  | S n' =>
      fillRows n' (row + 1)%Z cols pos mass
        (fillColumns (Z.to_nat cols) 0%Z (pos row) mass sim)
  end.

(** ** [SimulationSystem::AddParticleGrid] *)

Definition AddParticleGrid (sim : SimulationSystem) (rows cols : Z)
    (bottomLeft topRight spacing : glm.vec2) (mass : Q)
  : SimulationSystem * list Message :=
  if ((rows <=? 0) || (cols <=? 0))%Z then (sim, [ErrNotPositive rows cols]) else
  let gBL := gridBottomLeft sim bottomLeft in
  let gTR := gridTopRight sim topRight in
  if Qle_bool (glm.x gTR) (glm.x gBL) || Qle_bool (glm.y gTR) (glm.y gBL)
  then (sim, [ErrNoSpace]) else
  let reqW := requiredWidth sim cols spacing in
  let reqH := requiredHeight sim rows spacing in
  if Qltb (glm.x gTR - glm.x gBL) reqW || Qltb (glm.y gTR - glm.y gBL) reqH
  then (sim, [ErrNotFit rows cols (m_ParticleRadius sim) spacing
                (glm.mkvec2 reqW reqH) (glm.sub gTR gBL)]) else
  let avail := availableSpace sim bottomLeft topRight in
  if tooManyParticles sim rows cols bottomLeft topRight
  then (sim, [OutAvailable avail; ErrTooMany]) else
  let fs := finalSpacing sim rows cols bottomLeft topRight spacing in
  let minSp := minRequiredSpacing sim in
  if ((1 <? cols)%Z && Qltb (glm.x fs) minSp) || ((1 <? rows)%Z && Qltb (glm.y fs) minSp)
  then (sim, [OutAvailable avail; ErrOverlap fs minSp]) else
  (fillRows (Z.to_nat rows) 0%Z cols
     (cellPosition sim rows cols bottomLeft topRight spacing) mass sim,
   [OutAvailable avail; OutCreated rows cols]).

(** Whether a call reported success, and whether it reported an error. *)
Definition accepted (r : SimulationSystem * list Message) : bool :=
  existsb is_created (snd r).

Definition rejected (r : SimulationSystem * list Message) : bool :=
  existsb is_error (snd r).

(** The particles a call appended to the store it started from. *)
Definition appended (sim sim' : SimulationSystem) : list Particle :=
  skipn (length (m_Particles sim)) (m_Particles sim').

(** ** What the loops build, as a list *)

(** The values a counter takes over [n] iterations from [start]. *)
Fixpoint zseq (start : Z) (n : nat) : list Z :=
  match n with
  | O => []
  | S n' => start :: zseq (start + 1)%Z n'
  end.

Definition rowParticles (cols : Z) (pos : Z -> glm.vec2) (mass : Q) : list Particle :=
  map (fun col => mkParticle (pos col) mass) (zseq 0%Z (Z.to_nat cols)).

Definition gridParticles (rows cols : Z) (pos : Z -> Z -> glm.vec2) (mass : Q)
  : list Particle :=
  flat_map (fun row => rowParticles cols (pos row) mass) (zseq 0%Z (Z.to_nat rows)).

(** The spec's usable bounds of a single insertion: the domain inset by one
    radius on every side.  [AddParticle] never consults them. *)
Definition insideUsableBounds (sim : SimulationSystem) (p : glm.vec2) : bool :=
  Qle_bool (glm.x (m_bottomLeft sim) + m_ParticleRadius sim) (glm.x p)
  && Qle_bool (glm.x p) (glm.x (m_topRight sim) - m_ParticleRadius sim)
  && Qle_bool (glm.y (m_bottomLeft sim) + m_ParticleRadius sim) (glm.y p)
  && Qle_bool (glm.y p) (glm.y (m_topRight sim) - m_ParticleRadius sim).

(** ** [SimulationSystem::GetViewMatrix] *)

Definition simWidth (sim : SimulationSystem) : Q :=
  glm.x (m_topRight sim) - glm.x (m_bottomLeft sim).

(** [center] after [center.y -= simulationBorderOffset]. *)
Definition viewCenter (sim : SimulationSystem) (simulationBorderOffset : Q) : glm.vec2 :=
  let center := glm.scale (glm.add (m_topRight sim) (m_bottomLeft sim)) (1 # 2) in
  glm.mkvec2 (glm.x center) (glm.y center - simulationBorderOffset).

Definition viewWidth (sim : SimulationSystem) : Q := simWidth sim / m_Zoom sim.

Definition viewHeight (sim : SimulationSystem) (aspectRatio : Q) : Q :=
  viewWidth sim / aspectRatio.

Definition GetViewMatrix (sim : SimulationSystem) (aspectRatio simulationBorderOffset : Q)
  : glm.mat4 :=
  let center := viewCenter sim simulationBorderOffset in
  let viewWidth := viewWidth sim in
  let viewHeight := viewHeight sim aspectRatio in
  glm.ortho
    (glm.x center - viewWidth / 2) (glm.x center + viewWidth / 2)
    (glm.y center - viewHeight / 2) (glm.y center + viewHeight / 2)
    (- (1)) 1.

(** ** The fixed-step clock *)

Module Time.

(** Modelled from the spec: the class [Time] (core/Time.h) is not among the
    sources; Application.cpp only constructs it with the fixed step
    ([Time timeManager(1.0f / 60.0f)]) and calls [update()] and
    [getFixedDeltaTime()].  The state is the fixed step, the accumulated
    remainder and the configured maximum number of steps per call. *)
Record t : Type := mk {
  fixedDeltaTime : Q;
  accumulator : Q;
  maxSteps : Z
}.

(** Modelled from the spec: the getter of the fixed step, which
    Application.cpp passes to [UpdatePhysics]. *)
Definition getFixedDeltaTime (c : t) : Q := fixedDeltaTime c.

(** Modelled from the spec: [update] of the missing class [Time], section 4.1.
    The duration of the frame just rendered (which the real method reads from
    the wall clock) is added to the accumulator; the whole number of fixed
    steps it holds is reported and the fractional remainder kept; when that
    number is above the maximum, the maximum is reported and the accumulated
    time beyond it is discarded. *)
Definition update (c : t) (frameDuration : Q) : Z * t :=
  let acc := accumulator c + frameDuration in
  let steps := Qfloor (acc / fixedDeltaTime c) in
  if (maxSteps c <? steps)%Z
  then (maxSteps c, mk (fixedDeltaTime c) 0 (maxSteps c))
  else (steps, mk (fixedDeltaTime c) (acc - to_float steps * fixedDeltaTime c) (maxSteps c)).

End Time.

(** ** One axis of the grid

    [finalSpacing] is computed by the same expression on x (with [cols]) and
    on y (with [rows]); this is the expression for one axis, with [count] the
    number of columns or rows, [requested] the caller's spacing, and [lo],
    [hi] the shrunk rectangle's bounds on that axis. *)

Definition axisSpacing (count : Z) (requested lo hi : Q) : Q :=
  if (count =? 1)%Z then 0
  else if Qltb 0 requested then requested
       else (hi - lo) / to_float (count - 1).

(** Every validation of [AddParticleGrid] passed. *)
Definition gridFits (sim : SimulationSystem) (rows cols : Z)
    (bottomLeft topRight spacing : glm.vec2) : Prop :=
  (0 < rows)%Z /\ (0 < cols)%Z
  /\ glm.x (gridBottomLeft sim bottomLeft) < glm.x (gridTopRight sim topRight)
  /\ glm.y (gridBottomLeft sim bottomLeft) < glm.y (gridTopRight sim topRight)
  /\ requiredWidth sim cols spacing <= glm.x (availableSpace sim bottomLeft topRight)
  /\ requiredHeight sim rows spacing <= glm.y (availableSpace sim bottomLeft topRight)
  /\ tooManyParticles sim rows cols bottomLeft topRight = false
  /\ ((1 < cols)%Z ->
      minRequiredSpacing sim <= glm.x (finalSpacing sim rows cols bottomLeft topRight spacing))
  /\ ((1 < rows)%Z ->
      minRequiredSpacing sim <= glm.y (finalSpacing sim rows cols bottomLeft topRight spacing)).

(** ** The configuration of Application.cpp

    A 2000 x 1500 domain centered on the origin with particle radius 10, and
    the request for a grid over the whole domain. *)

Definition appBottomLeft : glm.vec2 := glm.mkvec2 (-1000) (-750).
Definition appTopRight : glm.vec2 := glm.mkvec2 1000 750.
Definition appSim : SimulationSystem := SimulationSystem_init appBottomLeft appTopRight 10.

Definition appGrid (rows cols : Z) (spacing : glm.vec2) : SimulationSystem * list Message :=
  AddParticleGrid appSim rows cols appBottomLeft appTopRight spacing 1.

(** A clock with the step of Application.cpp and at most five steps per call. *)
Definition appClock : Time.t := Time.mk (1 # 60) 0 5.

(** ** [SimulationSystem::PixelToSimulationDistance] *)

Definition PixelToSimulationDistance (sim : SimulationSystem) (pixelDistance : Q) : Q :=
  let simWidth := glm.x (m_topRight sim) - glm.x (m_bottomLeft sim) in
  let viewWidth := simWidth / m_Zoom sim in
  let scale := viewWidth / to_float (m_WindowWidth sim) in
  pixelDistance * scale.

(** ** Sequences of calls on one system *)

Inductive Call : Type :=
  | CallAddParticle (position : glm.vec2) (mass : Q)
  | CallAddParticleGrid (rows cols : Z) (bottomLeft topRight spacing : glm.vec2) (mass : Q).

Definition perform (sim : SimulationSystem) (c : Call) : SimulationSystem :=
  match c with
  | CallAddParticle position mass => AddParticle sim position mass
  | CallAddParticleGrid rows cols bottomLeft topRight spacing mass =>
      fst (AddParticleGrid sim rows cols bottomLeft topRight spacing mass)
  end.

Definition performAll (calls : list Call) (sim : SimulationSystem) : SimulationSystem :=
  fold_left perform calls sim.

(** ** The window title (Application.cpp)

    [UpdateWindowTitle] formats four readings of the time manager with
    [snprintf] and appends a status indicator chosen from the average frame
    rate.  The four formatted buffers are taken as given strings (the time
    manager is not among the sources); [avgFPS] is the value of
    [timeManager.getAverageFPS()].  The result is the string handed to
    [glfwSetWindowTitle]. *)

Definition targetFPS : Q := 60.

(** The indicator appended to the title.  The thresholds [targetFPS * 0.95f]
    and [targetFPS * 0.8f] are 57 and 48, also as [float] products. *)
Definition statusIndicator (avgFPS : Q) : String.string :=
  if Qle_bool (targetFPS * (95 # 100)) avgFPS then " [Good]    "%string
  else if Qle_bool (targetFPS * (8 # 10)) avgFPS then " [Average] "%string
  else " [Poor]    "%string.

Definition UpdateWindowTitle (fpsBuffer avgFpsBuffer mspfBuffer avgMspfBuffer : String.string)
    (avgFPS : Q) (appName : String.string) : String.string :=
  let title :=
    String.append appName (String.append " | "%string (String.append "FPS: "%string
      (String.append fpsBuffer (String.append " (Avg: "%string (String.append avgFpsBuffer
        (String.append ") | "%string (String.append "MS: "%string (String.append mspfBuffer
          (String.append " (Avg: "%string (String.append avgMspfBuffer ")"%string)))))))))) in
  String.append title (statusIndicator avgFPS).

(** ** The title refresh counter of the main loop

    One pass of [if (++counter > 75) { UpdateWindowTitle(...); counter = 0; }]:
    the new counter, and whether the title was refreshed. *)
Definition titleTick (counter : Z) : Z * bool :=
  let counter := (counter + 1)%Z in
  if (75 <? counter)%Z then (0%Z, true) else (counter, false).

(** [n] passes of the main loop: the counter, and the number of refreshes. *)
Fixpoint titleFrames (n : nat) (counter : Z) (refreshes : nat) : Z * nat :=
  match n with
  | O => (counter, refreshes)
  | S n' =>
      let (counter', refreshed) := titleTick counter in
      titleFrames n' counter' (if refreshed then S refreshes else refreshes)
  end.

(** ** The program on single-precision numbers

    [F32] is the same code with every [float] a binary32 value and every
    operation rounded to nearest, ties to even, one operation at a time, as
    IEEE 754 prescribes: sums, products and quotients overflow to infinity,
    a division by zero yields an infinity or NaN, and a comparison with NaN
    is false.  An [int] operand of a [float] operation is converted first
    ([of_int]).  The member [m_ParticleRadius] is declared in a header
    outside the sources at hand; it is taken to be a [float], which is what
    the constructor's [unsigned int] argument converts to on storing and what
    Application.cpp passes ([float particleRadius = 10.0f]).  Statements
    about computed numbers are made on this model. *)

Module F32.

Definition prec : Z := 24.
Definition emax : Z := 128.

Definition float : Type := spec_float.

Definition add : float -> float -> float := SFadd prec emax.
Definition sub : float -> float -> float := SFsub prec emax.
Definition mul : float -> float -> float := SFmul prec emax.
Definition div : float -> float -> float := SFdiv prec emax.
Definition ltb : float -> float -> bool := SFltb.
Definition leb : float -> float -> bool := SFleb.
Definition fabs : float -> float := SFabs.

(** [int] (or [unsigned]) to [float] conversion. *)
Definition of_int (n : Z) : float := binary_normalize prec emax n 0 false.

Definition zero : float := S754_zero false.
Definition one : float := of_int 1.
Definition two : float := of_int 2.
(** The literal [0.5f]. *)
Definition half : float := S754_finite false 8388608 (-24).

(** The rational a finite value stands for (0 for infinities and NaN). *)
Definition F2Q (f : float) : Q :=
  match f with
  | S754_finite s m e => (if s then - (1) else 1) * inject_Z (Zpos m) * Qpower 2 e
  | _ => 0
  end.

Definition is_finite (f : float) : bool :=
  match f with
  | S754_finite _ _ _ | S754_zero _ => true
  | _ => false
  end.

Record vec2 : Type := mkvec2 { x : float; y : float }.

(** [glm::vec2(s)], [+], [-], [* s], [glm::max], [glm::min], componentwise;
    scalar [glm::max(a, b)] is [(a < b) ? b : a] and [glm::min(a, b)] is
    [(b < a) ? b : a]. *)
Definition splat (s : float) : vec2 := mkvec2 s s.
Definition vadd (a b : vec2) : vec2 := mkvec2 (add (x a) (x b)) (add (y a) (y b)).
Definition vsub (a b : vec2) : vec2 := mkvec2 (sub (x a) (x b)) (sub (y a) (y b)).
Definition vscale (a : vec2) (s : float) : vec2 := mkvec2 (mul (x a) s) (mul (y a) s).
Definition fmax (a b : float) : float := if ltb a b then b else a.
Definition fmin (a b : float) : float := if ltb b a then b else a.
Definition vmax (a b : vec2) : vec2 := mkvec2 (fmax (x a) (x b)) (fmax (y a) (y b)).
Definition vmin (a b : vec2) : vec2 := mkvec2 (fmin (x a) (x b)) (fmin (y a) (y b)).

Record vec4 : Type := mkvec4 { x4 : float; y4 : float; z4 : float; w4 : float }.
Record mat4 : Type := mkmat4 { col0 : vec4; col1 : vec4; col2 : vec4; col3 : vec4 }.

(** Modelled from the spec: GLM is an external library, not among the
    sources.  [glm::ortho(left, right, bottom, top, zNear, zFar)] as GLM
    builds it in its default configuration (right-handed, clip depth -1..1):
    the identity matrix with six entries overwritten, each computed in
    single precision. *)
Definition ortho (left right bottom top zNear zFar : float) : mat4 :=
  mkmat4
    (mkvec4 (div two (sub right left)) zero zero zero)
    (mkvec4 zero (div two (sub top bottom)) zero zero)
    (mkvec4 zero zero (div (SFopp two) (sub zFar zNear)) zero)
    (mkvec4 (div (SFopp (add right left)) (sub right left))
            (div (SFopp (add top bottom)) (sub top bottom))
            (div (SFopp (add zFar zNear)) (sub zFar zNear))
            one).

Record Particle : Type := mkParticle {
  position : vec2;
  mass : float
}.

Record SimulationSystem : Type := mkSimulationSystem {
  m_bottomLeft : vec2;
  m_topRight : vec2;
  m_ParticleRadius : float;
  m_Zoom : float;
  m_WindowWidth : Z;
  m_SimHeight : float;
  m_SimWidth : float;
  m_Particles : list Particle
}.

(** The constructor; [particleRadius] is an [unsigned int], stored as the
    [float] it converts to. *)
Definition SimulationSystem_init (bottomLeft topRight : vec2) (particleRadius : N)
  : SimulationSystem :=
  mkSimulationSystem bottomLeft topRight (of_int (Z.of_N particleRadius))
    one 800
    (fabs (sub (y topRight) (y bottomLeft)))
    (fabs (sub (x topRight) (x bottomLeft)))
    [].

Definition set_Particles (sim : SimulationSystem) (ps : list Particle) : SimulationSystem :=
  mkSimulationSystem (m_bottomLeft sim) (m_topRight sim) (m_ParticleRadius sim)
    (m_Zoom sim) (m_WindowWidth sim) (m_SimHeight sim) (m_SimWidth sim) ps.

Definition push_back (sim : SimulationSystem) (p : Particle) : SimulationSystem :=
  set_Particles sim (m_Particles sim ++ [p]).

Definition AddParticle (sim : SimulationSystem) (position : vec2) (mass : float)
  : SimulationSystem :=
  let newParticle := mkParticle position mass in
  push_back sim newParticle.

(** The lines [AddParticleGrid] writes, with the values it prints. *)
Inductive Message : Type :=
  | ErrNotPositive (rows cols : Z)
  | ErrNoSpace
  | ErrNotFit (rows cols : Z) (radius : float) (spacing required available : vec2)
  | OutAvailable (availableSpace : vec2)
  | ErrTooMany
  | ErrOverlap (finalSpacing : vec2) (minRequiredSpacing : float)
  | OutCreated (rows cols : Z).

Definition is_error (m : Message) : bool :=
  match m with
  | ErrNotPositive _ _ | ErrNoSpace | ErrNotFit _ _ _ _ _ _ | ErrTooMany
  | ErrOverlap _ _ => true
  | OutAvailable _ | OutCreated _ _ => false
  end.

Definition is_created (m : Message) : bool :=
  match m with
  | OutCreated _ _ => true
  | _ => false
  end.

(** The locals of [AddParticleGrid], in the order the code computes them. *)

Definition gridBottomLeft (sim : SimulationSystem) (bottomLeft : vec2) : vec2 :=
  vmax bottomLeft (vadd (m_bottomLeft sim) (splat (m_ParticleRadius sim))).

Definition gridTopRight (sim : SimulationSystem) (topRight : vec2) : vec2 :=
  vmin topRight (vsub (m_topRight sim) (splat (m_ParticleRadius sim))).

Definition requiredWidth (sim : SimulationSystem) (cols : Z) (spacing : vec2) : float :=
  let requiredWidth := mul (of_int cols) (mul two (m_ParticleRadius sim)) in
  if (1 <? cols)%Z
  then add requiredWidth (mul (of_int (cols - 1)) (x spacing))
  else requiredWidth.

Definition requiredHeight (sim : SimulationSystem) (rows : Z) (spacing : vec2) : float :=
  let requiredHeight := mul (of_int rows) (mul two (m_ParticleRadius sim)) in
  if (1 <? rows)%Z
  then add requiredHeight (mul (of_int (rows - 1)) (y spacing))
  else requiredHeight.

Definition availableSpace (sim : SimulationSystem) (bottomLeft topRight : vec2) : vec2 :=
  vsub (gridTopRight sim topRight) (gridBottomLeft sim bottomLeft).

(** The capacity test
    [(availableSpace.y / (2 r)) * (availableSpace.x / (2 r)) < rows * cols];
    [rows * cols] is an [int] product, converted for the comparison. *)
Definition tooManyParticles (sim : SimulationSystem) (rows cols : Z)
    (bottomLeft topRight : vec2) : bool :=
  let avail := availableSpace sim bottomLeft topRight in
  let diameter := mul two (m_ParticleRadius sim) in
  ltb (mul (div (y avail) diameter) (div (x avail) diameter))
      (of_int (int_mul rows cols)).

Definition finalSpacing (sim : SimulationSystem) (rows cols : Z)
    (bottomLeft topRight spacing : vec2) : vec2 :=
  let avail := availableSpace sim bottomLeft topRight in
  mkvec2
    (if (cols =? 1)%Z then zero
     else if ltb zero (x spacing) then x spacing
          else div (x avail) (of_int (cols - 1)))
    (if (rows =? 1)%Z then zero
     else if ltb zero (y spacing) then y spacing
          else div (y avail) (of_int (rows - 1))).

Definition minRequiredSpacing (sim : SimulationSystem) : float :=
  mul two (m_ParticleRadius sim).

Definition gridSize (sim : SimulationSystem) (rows cols : Z)
    (bottomLeft topRight spacing : vec2) : vec2 :=
  let fs := finalSpacing sim rows cols bottomLeft topRight spacing in
  mkvec2 (mul (x fs) (of_int (cols - 1))) (mul (y fs) (of_int (rows - 1))).

Definition startPos (sim : SimulationSystem) (rows cols : Z)
    (bottomLeft topRight spacing : vec2) : vec2 :=
  let gBL := gridBottomLeft sim bottomLeft in
  let avail := availableSpace sim bottomLeft topRight in
  let size := gridSize sim rows cols bottomLeft topRight spacing in
  mkvec2
    (if ltb (x size) (x avail)
     then add (x gBL) (div (sub (x avail) (x size)) two)
     else x gBL)
    (if ltb (y size) (y avail)
     then add (y gBL) (div (sub (y avail) (y size)) two)
     else y gBL).

(** The position the loop body computes for [(row, col)]. *)
Definition cellPosition (sim : SimulationSystem) (rows cols : Z)
    (bottomLeft topRight spacing : vec2) (row col : Z) : vec2 :=
  let fs := finalSpacing sim rows cols bottomLeft topRight spacing in
  vadd (startPos sim rows cols bottomLeft topRight spacing)
       (mkvec2 (mul (of_int col) (x fs)) (mul (of_int row) (y fs))).

Fixpoint fillColumns (n : nat) (col : Z) (pos : Z -> vec2) (mass : float)
    (sim : SimulationSystem) : SimulationSystem :=
  match n with
  | O => sim
  | S n' => fillColumns n' (col + 1)%Z pos mass (AddParticle sim (pos col) mass)
  end.

Fixpoint fillRows (n : nat) (row : Z) (cols : Z) (pos : Z -> Z -> vec2) (mass : float)
    (sim : SimulationSystem) : SimulationSystem :=
  match n with
  | O => sim
  | S n' =>
      fillRows n' (row + 1)%Z cols pos mass
        (fillColumns (Z.to_nat cols) 0%Z (pos row) mass sim)
  end.

(** [SimulationSystem::AddParticleGrid]: the new system and the lines
    written. *)
Definition AddParticleGrid (sim : SimulationSystem) (rows cols : Z)
    (bottomLeft topRight spacing : vec2) (mass : float)
  : SimulationSystem * list Message :=
  if ((rows <=? 0) || (cols <=? 0))%Z then (sim, [ErrNotPositive rows cols]) else
  let gBL := gridBottomLeft sim bottomLeft in
  let gTR := gridTopRight sim topRight in
  if leb (x gTR) (x gBL) || leb (y gTR) (y gBL)
  then (sim, [ErrNoSpace]) else
  let reqW := requiredWidth sim cols spacing in
  let reqH := requiredHeight sim rows spacing in
  if ltb (sub (x gTR) (x gBL)) reqW || ltb (sub (y gTR) (y gBL)) reqH
  then (sim, [ErrNotFit rows cols (m_ParticleRadius sim) spacing
                (mkvec2 reqW reqH) (vsub gTR gBL)]) else
  let avail := availableSpace sim bottomLeft topRight in
  if tooManyParticles sim rows cols bottomLeft topRight
  then (sim, [OutAvailable avail; ErrTooMany]) else
  let fs := finalSpacing sim rows cols bottomLeft topRight spacing in
  let minSp := minRequiredSpacing sim in
  if ((1 <? cols)%Z && ltb (x fs) minSp) || ((1 <? rows)%Z && ltb (y fs) minSp)
  then (sim, [OutAvailable avail; ErrOverlap fs minSp]) else
  (fillRows (Z.to_nat rows) 0%Z cols
     (cellPosition sim rows cols bottomLeft topRight spacing) mass sim,
   [OutAvailable avail; OutCreated rows cols]).

Definition accepted (r : SimulationSystem * list Message) : bool :=
  existsb is_created (snd r).

Definition rejected (r : SimulationSystem * list Message) : bool :=
  existsb is_error (snd r).

Definition appended (sim sim' : SimulationSystem) : list Particle :=
  skipn (length (m_Particles sim)) (m_Particles sim').

Definition rowParticles (cols : Z) (pos : Z -> vec2) (mass : float) : list Particle :=
  map (fun col => mkParticle (pos col) mass) (zseq 0%Z (Z.to_nat cols)).

Definition gridParticles (rows cols : Z) (pos : Z -> Z -> vec2) (mass : float)
  : list Particle :=
  flat_map (fun row => rowParticles cols (pos row) mass) (zseq 0%Z (Z.to_nat rows)).

(** Every validation of [AddParticleGrid] passed, as the code tests it. *)
Definition gridFits (sim : SimulationSystem) (rows cols : Z)
    (bottomLeft topRight spacing : vec2) : Prop :=
  (0 < rows)%Z /\ (0 < cols)%Z
  /\ leb (x (gridTopRight sim topRight)) (x (gridBottomLeft sim bottomLeft)) = false
  /\ leb (y (gridTopRight sim topRight)) (y (gridBottomLeft sim bottomLeft)) = false
  /\ ltb (x (availableSpace sim bottomLeft topRight)) (requiredWidth sim cols spacing) = false
  /\ ltb (y (availableSpace sim bottomLeft topRight)) (requiredHeight sim rows spacing) = false
  /\ tooManyParticles sim rows cols bottomLeft topRight = false
  /\ ((1 < cols)%Z ->
      ltb (x (finalSpacing sim rows cols bottomLeft topRight spacing))
          (minRequiredSpacing sim) = false)
  /\ ((1 < rows)%Z ->
      ltb (y (finalSpacing sim rows cols bottomLeft topRight spacing))
          (minRequiredSpacing sim) = false).

(** [SimulationSystem::GetViewMatrix]. *)
Definition GetViewMatrix (sim : SimulationSystem) (aspectRatio simulationBorderOffset : float)
  : mat4 :=
  let simWidth := sub (x (m_topRight sim)) (x (m_bottomLeft sim)) in
  let center := vscale (vadd (m_topRight sim) (m_bottomLeft sim)) half in
  let center := mkvec2 (x center) (sub (y center) simulationBorderOffset) in
  let viewWidth := div simWidth (m_Zoom sim) in
  let viewHeight := div viewWidth aspectRatio in
  ortho
    (sub (x center) (div viewWidth two)) (add (x center) (div viewWidth two))
    (sub (y center) (div viewHeight two)) (add (y center) (div viewHeight two))
    (SFopp one) one.

End F32.

(** ** Single-precision inputs used below *)

Definition f32vec (a b : Z) : F32.vec2 := F32.mkvec2 (F32.of_int a) (F32.of_int b).

(** The domain of Application.cpp, radius 10. *)
Definition appSim32 : F32.SimulationSystem :=
  F32.SimulationSystem_init (f32vec (-1000) (-750)) (f32vec 1000 750) 10.

(** A grid requested over the whole domain with the spacing Application.cpp
    passes, zero on both axes. *)
Definition appGrid32 (rows cols : Z) : F32.SimulationSystem * list F32.Message :=
  F32.AddParticleGrid appSim32 rows cols (f32vec (-1000) (-750)) (f32vec 1000 750)
    (f32vec 0 0) F32.one.

(** The literals [20.1f], [60.1f], [60.2f], [0.7f] and [1.5f]: the quotient
    of two small integers, rounded once, is the [float] nearest to the
    decimal. *)
Definition f32_20_1 : F32.float := F32.div (F32.of_int 201) (F32.of_int 10).
Definition f32_60_1 : F32.float := F32.div (F32.of_int 601) (F32.of_int 10).
Definition f32_60_2 : F32.float := F32.div (F32.of_int 602) (F32.of_int 10).
Definition f32_0_7 : F32.float := F32.div (F32.of_int 7) (F32.of_int 10).

(** The domain of Application.cpp seen at its zoom factor, [0.7f]. *)
Definition appViewSim32 : F32.SimulationSystem :=
  F32.mkSimulationSystem (f32vec (-1000) (-750)) (f32vec 1000 750) (F32.of_int 10) f32_0_7 800
    (F32.of_int 1500) (F32.of_int 2000) [].





(** ** The two axes exchanged

    A vector with its components exchanged, and the system whose domain is
    the mirror image of another's in the diagonal. *)

Definition swap (v : F32.vec2) : F32.vec2 := F32.mkvec2 (F32.y v) (F32.x v).

Definition transpose (sim : F32.SimulationSystem) : F32.SimulationSystem :=
  F32.mkSimulationSystem (swap (F32.m_bottomLeft sim)) (swap (F32.m_topRight sim))
    (F32.m_ParticleRadius sim) (F32.m_Zoom sim) (F32.m_WindowWidth sim)
    (F32.m_SimWidth sim) (F32.m_SimHeight sim)
    (map (fun p => F32.mkParticle (swap (F32.position p)) (F32.mass p))
         (F32.m_Particles sim)).

(** * Properties *)

(** ** Concrete runs

    The scenario of the spec's section 8: a 2 x 2 grid with zero spacing is
    spread over the shrunk rectangle, and a 100 x 100 grid is refused because
    it needs 2000 x 2000 units where 1980 x 1480 are available. *)

Example grid_2x2_positions :
  map (fun p => (Qred (glm.x (position p)), Qred (glm.y (position p))))
      (m_Particles (fst (appGrid 2 2 (glm.mkvec2 0 0))))
  = [(-990, -740); (990, -740); (-990, 740); (990, 740)]
  /\ snd (appGrid 2 2 (glm.mkvec2 0 0))
     = [OutAvailable (glm.mkvec2 (1000 - 10 - (-1000 + 10)) (750 - 10 - (-750 + 10)));
        OutCreated 2 2].
Proof. split; reflexivity. Qed.

Example grid_100x100_refused :
  fst (appGrid 100 100 (glm.mkvec2 0 0)) = appSim
  /\ exists required available,
       snd (appGrid 100 100 (glm.mkvec2 0 0))
       = [ErrNotFit 100 100 10 (glm.mkvec2 0 0) required available]
       /\ glm.x required == 2000 /\ glm.y required == 2000
       /\ glm.x available == 1980 /\ glm.y available == 1480.
Proof.
  split; [reflexivity|]. eexists _, _. split; [reflexivity|].
  repeat split; reflexivity.
Qed.

(** A grid with requested spacing: three rows of two, 25 apart in x and 30
    apart in y, centered in a 200 x 200 rectangle around the origin. *)
Example grid_3x2_spaced :
  map (fun p => (Qred (glm.x (position p)), Qred (glm.y (position p))))
      (m_Particles (fst (AddParticleGrid appSim 3 2 (glm.mkvec2 (-100) (-100))
                           (glm.mkvec2 100 100) (glm.mkvec2 25 30) 1)))
  = [(-25 # 2, -30); (25 # 2, -30); (-25 # 2, 0); (25 # 2, 0); (-25 # 2, 30); (25 # 2, 30)].
Proof. reflexivity. Qed.

(** ** Comparisons as propositions *)

Lemma Qltb_true (a b : Q) : Qltb a b = true <-> a < b.
Proof.
  unfold Qltb. rewrite negb_true_iff, <- not_true_iff_false, Qle_bool_iff.
  split; [apply Qnot_le_lt | apply Qlt_not_le].
Qed.

Lemma Qltb_false (a b : Q) : Qltb a b = false <-> b <= a.
Proof.
  unfold Qltb. rewrite negb_false_iff. apply Qle_bool_iff.
Qed.

Lemma Qle_bool_false (a b : Q) : Qle_bool a b = false <-> b < a.
Proof.
  rewrite <- not_true_iff_false, Qle_bool_iff.
  split; [apply Qnot_le_lt | apply Qlt_not_le].
Qed.

Lemma Qeq_bool_false (a b : Q) : Qeq_bool a b = false <-> ~ a == b.
Proof.
  rewrite <- not_true_iff_false, Qeq_bool_iff. tauto.
Qed.

(** Turn the boolean tests of the code, once their outcome is known, into
    the order facts they decide. *)
Ltac prop_of_tests :=
  repeat match goal with
  | H : (_ || _)%bool = true |- _ => apply orb_true_iff in H
  | H : (_ || _)%bool = false |- _ => apply orb_false_iff in H; destruct H
  | H : (_ && _)%bool = true |- _ => apply andb_true_iff in H; destruct H
  | H : (_ && _)%bool = false |- _ => apply andb_false_iff in H
  | H : Qltb _ _ = true |- _ => apply Qltb_true in H
  | H : Qltb _ _ = false |- _ => apply Qltb_false in H
  | H : Qle_bool _ _ = true |- _ => apply Qle_bool_iff in H
  | H : Qle_bool _ _ = false |- _ => apply Qle_bool_false in H
  | H : Qeq_bool _ _ = true |- _ => apply Qeq_bool_iff in H
  | H : Qeq_bool _ _ = false |- _ => apply Qeq_bool_false in H
  | H : (_ <=? _)%Z = true |- _ => apply Z.leb_le in H
  | H : (_ <=? _)%Z = false |- _ => apply Z.leb_gt in H
  | H : (_ <? _)%Z = true |- _ => apply Z.ltb_lt in H
  | H : (_ <? _)%Z = false |- _ => apply Z.ltb_ge in H
  | H : (_ =? _)%Z = true |- _ => apply Z.eqb_eq in H
  | H : (_ =? _)%Z = false |- _ => apply Z.eqb_neq in H
  end.

Lemma to_float_plus (a b : Z) : to_float (a + b) == to_float a + to_float b.
Proof. unfold to_float. rewrite inject_Z_plus. reflexivity. Qed.


Lemma to_float_lt (a b : Z) : (a < b)%Z -> to_float a < to_float b.
Proof. intros H. unfold to_float. now rewrite <- Zlt_Qlt. Qed.


(** ** The loops append the full grid *)

Lemma set_Particles_push_back (sim : SimulationSystem) (p : Particle) (ps : list Particle) :
  set_Particles (push_back sim p) ps = set_Particles sim ps.
Proof. reflexivity. Qed.

Lemma set_Particles_same (sim : SimulationSystem) : set_Particles sim (m_Particles sim) = sim.
Proof. destruct sim; reflexivity. Qed.

Lemma fillColumns_spec (n : nat) :
  forall (col : Z) (pos : Z -> glm.vec2) (m : Q) (sim : SimulationSystem),
    fillColumns n col pos m sim
    = set_Particles sim
        (m_Particles sim ++ map (fun c => mkParticle (pos c) m) (zseq col n)).
Proof.
  induction n as [|n IH]; intros col pos m sim; simpl.
  - rewrite app_nil_r. symmetry. apply set_Particles_same.
  - rewrite IH. unfold AddParticle. rewrite set_Particles_push_back.
    simpl. now rewrite <- app_assoc.
Qed.

Lemma fillRows_spec (n : nat) :
  forall (row cols : Z) (pos : Z -> Z -> glm.vec2) (m : Q) (sim : SimulationSystem),
    fillRows n row cols pos m sim
    = set_Particles sim
        (m_Particles sim
         ++ flat_map (fun r => rowParticles cols (pos r) m) (zseq row n)).
Proof.
  induction n as [|n IH]; intros row cols pos m sim; simpl.
  - rewrite app_nil_r. symmetry. apply set_Particles_same.
  - rewrite IH, fillColumns_spec. unfold rowParticles. simpl.
    now rewrite <- app_assoc.
Qed.

Lemma fillRows_grid (rows cols : Z) (pos : Z -> Z -> glm.vec2) (m : Q) (sim : SimulationSystem) :
  fillRows (Z.to_nat rows) 0%Z cols pos m sim
  = set_Particles sim (m_Particles sim ++ gridParticles rows cols pos m).
Proof. apply fillRows_spec. Qed.

Lemma length_zseq (n : nat) : forall start, length (zseq start n) = n.
Proof. induction n; intros; simpl; auto. Qed.

Lemma nth_error_zseq (n : nat) :
  forall start i, (i < n)%nat -> nth_error (zseq start n) i = Some (start + Z.of_nat i)%Z.
Proof.
  induction n as [|n IH]; intros start i Hi; [lia|].
  destruct i as [|i]; simpl.
  - f_equal. lia.
  - rewrite IH by lia. f_equal. lia.
Qed.

Lemma length_rowParticles (cols : Z) (pos : Z -> glm.vec2) (m : Q) :
  length (rowParticles cols pos m) = Z.to_nat cols.
Proof. unfold rowParticles. now rewrite length_map, length_zseq. Qed.

Lemma length_flat_uniform {A B : Type} (f : A -> list B) (k : nat) (l : list A) :
  (forall a, length (f a) = k) -> length (flat_map f l) = (length l * k)%nat.
Proof.
  intros Hk. induction l as [|a l IH]; simpl; auto.
  now rewrite length_app, Hk, IH.
Qed.

Lemma length_gridParticles (rows cols : Z) (pos : Z -> Z -> glm.vec2) (m : Q) :
  length (gridParticles rows cols pos m) = (Z.to_nat rows * Z.to_nat cols)%nat.
Proof.
  unfold gridParticles.
  rewrite (length_flat_uniform _ (Z.to_nat cols)).
  - now rewrite length_zseq.
  - intros a. apply length_rowParticles.
Qed.

Lemma nth_error_flat_uniform {A B : Type} (f : A -> list B) (k : nat) :
  (forall a, length (f a) = k) ->
  forall (l : list A) (i j : nat) (a : A),
    nth_error l i = Some a -> (j < k)%nat ->
    nth_error (flat_map f l) (i * k + j) = nth_error (f a) j.
Proof.
  intros Hk l. induction l as [|a0 l IH]; intros i j a Hi Hj.
  - destruct i; discriminate.
  - destruct i as [|i]; simpl in *.
    + injection Hi as ->. rewrite nth_error_app1 by (rewrite Hk; lia). reflexivity.
    + rewrite nth_error_app2 by (rewrite Hk; lia).
      rewrite Hk. replace (k + i * k + j - k)%nat with (i * k + j)%nat by lia.
      now apply IH.
Qed.

Lemma appended_app (sim : SimulationSystem) (ps : list Particle) :
  appended sim (set_Particles sim (m_Particles sim ++ ps)) = ps.
Proof.
  unfold appended. simpl. rewrite skipn_app, skipn_all, Nat.sub_diag. reflexivity.
Qed.

Lemma appended_same (sim : SimulationSystem) : appended sim sim = [].
Proof. unfold appended. apply skipn_all. Qed.

(** ** The outcomes of [AddParticleGrid] *)

Lemma AddParticleGrid_cases (sim : SimulationSystem) (rows cols : Z)
    (bottomLeft topRight spacing : glm.vec2) (m : Q) :
  let r := AddParticleGrid sim rows cols bottomLeft topRight spacing m in
  (rejected r = true /\ accepted r = false /\ fst r = sim
   /\ ~ gridFits sim rows cols bottomLeft topRight spacing)
  \/
  (accepted r = true /\ rejected r = false
   /\ gridFits sim rows cols bottomLeft topRight spacing
   /\ fst r = set_Particles sim
               (m_Particles sim
                ++ gridParticles rows cols
                     (cellPosition sim rows cols bottomLeft topRight spacing) m)).
Proof.
  unfold AddParticleGrid, gridFits, availableSpace. cbv zeta.
  destruct ((rows <=? 0)%Z || (cols <=? 0)%Z) eqn:E1.
  { left. repeat split; try reflexivity.
    intros (Hr & Hc & _). prop_of_tests. lia. }
  destruct (Qle_bool _ _ || Qle_bool _ _) eqn:E2.
  { left. repeat split; try reflexivity.
    intros (_ & _ & Hx & Hy & _). prop_of_tests. destruct E2; prop_of_tests; lra. }
  destruct (Qltb _ _ || Qltb _ _) eqn:E3.
  { left. repeat split; try reflexivity.
    intros (_ & _ & _ & _ & Hw & Hh & _). cbn [glm.x glm.y glm.sub] in Hw, Hh.
    prop_of_tests. destruct E3; prop_of_tests; lra. }
  destruct (tooManyParticles _ _ _ _ _) eqn:E4.
  { left. repeat split; try reflexivity.
    intros (_ & _ & _ & _ & _ & _ & Ht & _). discriminate. }
  destruct ((_ && _) || (_ && _)) eqn:E5.
  { left. repeat split; try reflexivity.
    intros (_ & _ & _ & _ & _ & _ & _ & Hsx & Hsy).
    prop_of_tests. destruct E5 as [E5|E5]; prop_of_tests.
    - specialize (Hsx ltac:(assumption)). lra.
    - specialize (Hsy ltac:(assumption)). lra. }
  right. rewrite fillRows_grid. prop_of_tests. cbn [glm.x glm.y glm.sub fst snd].
  repeat split; try reflexivity; try lia; try lra.
  - intros Hc. match goal with
      | H : _ \/ (Qltb (glm.x _) _ = false) |- _ => destruct H
      end; prop_of_tests; [lia | assumption].
  - intros Hr. match goal with
      | H : _ \/ (Qltb (glm.y _) _ = false) |- _ => destruct H
      end; prop_of_tests; [lia | assumption].
Qed.

Lemma AddParticleGrid_rejected_unchanged (sim : SimulationSystem) (rows cols : Z)
    (bottomLeft topRight spacing : glm.vec2) (m : Q) :
  ~ gridFits sim rows cols bottomLeft topRight spacing ->
  let r := AddParticleGrid sim rows cols bottomLeft topRight spacing m in
  rejected r = true /\ accepted r = false /\ fst r = sim.
Proof.
  intros Hno r.
  destruct (AddParticleGrid_cases sim rows cols bottomLeft topRight spacing m)
    as [(Hr & Ha & Hs & _) | (_ & _ & Hfit & _)]; [now repeat split | contradiction].
Qed.

(** ** Grid population is atomic *)

(** C1: every call to [AddParticleGrid] either passes all validation, reports
    success and appends the full grid, one particle per cell, [rows * cols]
    particles in all, or fails a validation, reports an error and leaves the
    system exactly as it was; a request with non-positive [rows] or [cols] is
    of the second kind.  No call appends part of a grid. *)
Theorem AddParticleGrid_all_or_nothing (sim : SimulationSystem) (rows cols : Z)
    (bottomLeft topRight spacing : glm.vec2) (m : Q) :
  let r := AddParticleGrid sim rows cols bottomLeft topRight spacing m in
  ((accepted r = true /\ rejected r = false
    /\ gridFits sim rows cols bottomLeft topRight spacing
    /\ m_Particles (fst r)
       = m_Particles sim
         ++ gridParticles rows cols (cellPosition sim rows cols bottomLeft topRight spacing) m
    /\ Z.of_nat (length (appended sim (fst r))) = (rows * cols)%Z)
   \/
   (rejected r = true /\ accepted r = false
    /\ ~ gridFits sim rows cols bottomLeft topRight spacing
    /\ fst r = sim
    /\ appended sim (fst r) = []))
  /\ ((rows <= 0)%Z \/ (cols <= 0)%Z -> rejected r = true /\ fst r = sim).
Proof.
  intros r. subst r. split.
  - destruct (AddParticleGrid_cases sim rows cols bottomLeft topRight spacing m)
      as [(Hr & Ha & Hs & Hno) | (Ha & Hr & Hfit & Hs)].
    + right. refine (conj Hr (conj Ha (conj Hno (conj Hs _)))).
      rewrite Hs. apply appended_same.
    + left. refine (conj Ha (conj Hr (conj Hfit (conj _ _)))).
      * rewrite Hs. reflexivity.
      * rewrite Hs, appended_app, length_gridParticles.
        destruct Hfit as (Hrows & Hcols & _). nia.
  - intros Hnp.
    destruct (AddParticleGrid_rejected_unchanged sim rows cols bottomLeft topRight spacing m)
      as (Hr & _ & Hs).
    + intros (Hrows & Hcols & _). lia.
    + now split.
Qed.

(** ** Single insertion *)

(** C2, as the spec states it, fails here: the position lies outside the
    usable bounds of a 2000 x 1500 domain with radius 10, and the particle is
    stored all the same. *)
Lemma AddParticle_outside_bounds_appends :
  ~ (insideUsableBounds
       (SimulationSystem_init (glm.mkvec2 (-1000) (-750)) (glm.mkvec2 1000 750) 10)
       (glm.mkvec2 5000 5000) = false ->
     m_Particles
       (AddParticle
          (SimulationSystem_init (glm.mkvec2 (-1000) (-750)) (glm.mkvec2 1000 750) 10)
          (glm.mkvec2 5000 5000) 1)
     = m_Particles
         (SimulationSystem_init (glm.mkvec2 (-1000) (-750)) (glm.mkvec2 1000 750) 10)).
Proof.
  intros H. specialize (H eq_refl). discriminate H.
Qed.

(** C2 (amended): [AddParticle] appends exactly one particle, with the given
    position and mass, at the end of the store and changes nothing else,
    whether the position is inside the usable bounds or not. *)
Theorem AddParticle_always_appends (sim : SimulationSystem) (p : glm.vec2) (m : Q) :
  AddParticle sim p m = set_Particles sim (m_Particles sim ++ [mkParticle p m])
  /\ appended sim (AddParticle sim p m) = [mkParticle p m]
  /\ length (m_Particles (AddParticle sim p m)) = S (length (m_Particles sim))
  /\ nth_error (m_Particles (AddParticle sim p m)) (length (m_Particles sim))
     = Some (mkParticle p m).
Proof.
  repeat split.
  - apply appended_app.
  - unfold AddParticle, push_back. simpl. rewrite length_app. simpl. lia.
  - unfold AddParticle, push_back. simpl.
    rewrite nth_error_app2, Nat.sub_diag by lia. reflexivity.
Qed.

(** ** The spacing on one axis *)

Lemma Qdiv_mul_cancel (a d : Q) : ~ d == 0 -> (a / d) * d == a.
Proof. intros Hd. field. exact Hd. Qed.

Lemma axis_gaps_pos (count : Z) : (1 < count)%Z -> 0 < to_float (count - 1).
Proof.
  intros H. change 0 with (to_float 0). apply to_float_lt. lia.
Qed.

(** The components of the locals are the one-axis expressions. *)
Lemma finalSpacing_axes (sim : SimulationSystem) (rows cols : Z) (bl tr sp : glm.vec2) :
  glm.x (finalSpacing sim rows cols bl tr sp)
  = axisSpacing cols (glm.x sp) (glm.x (gridBottomLeft sim bl)) (glm.x (gridTopRight sim tr))
  /\ glm.y (finalSpacing sim rows cols bl tr sp)
     = axisSpacing rows (glm.y sp) (glm.y (gridBottomLeft sim bl)) (glm.y (gridTopRight sim tr)).
Proof. split; reflexivity. Qed.

(** ** The fixed-step clock *)

Lemma Time_update_cases (c : Time.t) (frame : Q) :
  let steps := Qfloor ((Time.accumulator c + frame) / Time.fixedDeltaTime c) in
  ((Time.maxSteps c < steps)%Z
   /\ fst (Time.update c frame) = Time.maxSteps c
   /\ Time.accumulator (snd (Time.update c frame)) = 0)
  \/ ((steps <= Time.maxSteps c)%Z
      /\ fst (Time.update c frame) = steps
      /\ Time.accumulator (snd (Time.update c frame))
         = Time.accumulator c + frame - to_float steps * Time.fixedDeltaTime c).
Proof.
  cbv zeta. unfold Time.update.
  destruct (Time.maxSteps c <? _)%Z eqn:E; prop_of_tests; [left | right]; now repeat split.
Qed.

Lemma Qfloor_between (x : Q) (n : Z) :
  to_float n <= x -> x < to_float (n + 1) -> Qfloor x = n.
Proof.
  intros Hlo Hhi. unfold to_float in *.
  pose proof (Qfloor_resp_le _ _ Hlo) as H1. rewrite Qfloor_Z in H1.
  pose proof (Qfloor_le x) as H2.
  assert (H3 : inject_Z (Qfloor x) < inject_Z (n + 1)) by lra.
  rewrite <- Zlt_Qlt in H3. lia.
Qed.

(** The whole number of steps in [(n + f) * step], for [0 <= f < 1]. *)
Lemma whole_steps (acc step f : Q) (n : Z) :
  0 < step -> 0 <= f -> f < 1 -> acc == (to_float n + f) * step ->
  Qfloor (acc / step) = n.
Proof.
  intros Hs Hf0 Hf1 Hacc.
  assert (Hq : acc / step == to_float n + f) by (rewrite Hacc; field; lra).
  apply Qfloor_between; rewrite Hq, ?to_float_plus; change (to_float 1) with 1; lra.
Qed.

Lemma Time_update_config (c : Time.t) (frame : Q) :
  Time.fixedDeltaTime (snd (Time.update c frame)) = Time.fixedDeltaTime c
  /\ Time.maxSteps (snd (Time.update c frame)) = Time.maxSteps c.
Proof.
  unfold Time.update. destruct (_ <? _)%Z; split; reflexivity.
Qed.

(** C8: once the accumulated time is 3.5 fixed steps, [update] (with a
    maximum of at least 3 steps per call) reports 3 steps and keeps half a
    step; after a frame of 1000 fixed steps, on top of a remainder of less
    than one step, [update] reports the smaller of 1000 and the maximum,
    never more than the maximum, and when the maximum is below 1000 nothing
    of the excess is kept: the accumulator is left at zero and an immediate
    further call reports no step. *)
Theorem Time_update_steps (c : Time.t) (frame : Q) :
  0 < Time.fixedDeltaTime c ->
  let step := Time.fixedDeltaTime c in
  let r := Time.update c frame in
  (Time.accumulator c + frame == (7 # 2) * step -> (3 <= Time.maxSteps c)%Z ->
   fst r = 3%Z /\ Time.accumulator (snd r) == (1 # 2) * step)
  /\ (frame == 1000 * step -> 0 <= Time.accumulator c -> Time.accumulator c < step ->
      fst r = Z.min 1000 (Time.maxSteps c)
      /\ (fst r <= Time.maxSteps c)%Z
      /\ ((Time.maxSteps c < 1000)%Z ->
          fst r = Time.maxSteps c
          /\ Time.accumulator (snd r) = 0
          /\ ((0 <= Time.maxSteps c)%Z -> fst (Time.update (snd r) 0) = 0%Z))).
Proof.
  intros Hstep step r. subst r.
  pose proof (Time_update_cases c frame) as Hcases. cbv zeta in Hcases.
  fold step in Hcases.
  split.
  - intros Hacc Hmax.
    rewrite (whole_steps _ step (1 # 2) 3 Hstep) in Hcases
      by (try rewrite Hacc; change (to_float 3) with 3; lra).
    destruct Hcases as [(Hlt & _) | (_ & -> & ->)]; [lia|].
    split; [reflexivity|]. change (to_float 3) with 3. rewrite Hacc. ring.
  - intros Hframe Hacc0 Hacc1.
    assert (Hf : 0 <= Time.accumulator c / step < 1).
    { split; [apply Qle_shift_div_l | apply Qlt_shift_div_r]; lra. }
    rewrite (whole_steps _ step (Time.accumulator c / step) 1000 Hstep) in Hcases;
      [ | tauto | tauto | rewrite Hframe; change (to_float 1000) with 1000; field; lra ].
    destruct Hcases as [(Hlt & E1 & E2) | (Hle & E1 & E2)]; rewrite E1.
    + split; [lia | split; [lia|]]. intros _. split; [reflexivity | split; [exact E2|]].
      intros Hmax.
      pose proof (Time_update_cases (snd (Time.update c frame)) 0) as Hnext.
      cbv zeta in Hnext.
      destruct (Time_update_config c frame) as [Ef Em].
      rewrite E2, Ef, Em in Hnext. fold step in Hnext.
      rewrite (whole_steps (0 + 0) step 0 0 Hstep) in Hnext
        by (change (to_float 0) with 0; lra).
      destruct Hnext as [(Hlt' & _) | (_ & E3 & _)]; [lia | exact E3].
    + split; [lia | split; [lia|]]. intros Hlt. lia.
Qed.

Lemma Time_update_steps_witness :
  0 < Time.fixedDeltaTime appClock
  /\ Time.accumulator appClock + (7 # 120) == (7 # 2) * Time.fixedDeltaTime appClock
  /\ (3 <= Time.maxSteps appClock)%Z
  /\ fst (Time.update appClock (7 # 120)) = 3%Z
  /\ Time.accumulator (snd (Time.update appClock (7 # 120)))
     == (1 # 2) * Time.fixedDeltaTime appClock
  /\ (1000 # 60) == 1000 * Time.fixedDeltaTime appClock
  /\ fst (Time.update appClock (1000 # 60)) = Z.min 1000 (Time.maxSteps appClock).
Proof.
  assert (Hs : 0 < Time.fixedDeltaTime appClock) by reflexivity.
  assert (H35 : Time.accumulator appClock + (7 # 120) == (7 # 2) * Time.fixedDeltaTime appClock)
    by reflexivity.
  assert (Hm : (3 <= Time.maxSteps appClock)%Z) by (vm_compute; discriminate).
  assert (H1000 : (1000 # 60) == 1000 * Time.fixedDeltaTime appClock) by reflexivity.
  assert (Ha0 : 0 <= Time.accumulator appClock) by (vm_compute; discriminate).
  assert (Ha1 : Time.accumulator appClock < Time.fixedDeltaTime appClock) by reflexivity.
  split; [exact Hs | split; [exact H35 | split; [exact Hm|]]].
  destruct (proj1 (Time_update_steps appClock (7 # 120) Hs) H35 Hm) as [E3 Eacc].
  split; [exact E3 | split; [exact Eacc | split; [exact H1000|]]].
  exact (proj1 (proj2 (Time_update_steps appClock (1000 # 60) Hs) H1000 Ha0 Ha1)).
Defined.

(** * Further properties of the code *)

(** ** The constructor *)


(** ** The store only grows *)

Lemma set_Particles_twice (sim : SimulationSystem) (ps qs : list Particle) :
  set_Particles (set_Particles sim ps) qs = set_Particles sim qs.
Proof. reflexivity. Qed.

Lemma perform_spec (sim : SimulationSystem) (c : Call) :
  exists added, perform sim c = set_Particles sim (m_Particles sim ++ added).
Proof.
  destruct c as [p m | rows cols bl tr sp m]; simpl.
  - exists [mkParticle p m]. reflexivity.
  - destruct (AddParticleGrid_cases sim rows cols bl tr sp m)
      as [(_ & _ & Hs & _) | (_ & _ & _ & Hs)]; rewrite Hs.
    + exists []. rewrite app_nil_r. symmetry. apply set_Particles_same.
    + eexists. reflexivity.
Qed.

Lemma performAll_spec (calls : list Call) :
  forall sim, exists added,
    performAll calls sim = set_Particles sim (m_Particles sim ++ added).
Proof.
  induction calls as [|c calls IH]; intros sim; simpl.
  - exists []. rewrite app_nil_r. symmetry. apply set_Particles_same.
  - destruct (perform_spec sim c) as (a1 & E1).
    destruct (IH (perform sim c)) as (a2 & E2).
    exists (a1 ++ a2). unfold performAll in *. cbn [fold_left]. rewrite E2, E1.
    cbn [m_Particles set_Particles]. now rewrite app_assoc.
Qed.

(** Whatever sequence of [AddParticle] and [AddParticleGrid] calls is made,
    accepted or rejected, the bounds, radius, zoom and window width stay as
    they were, the particles already stored keep their index and their
    value, and the store never shrinks. *)
Theorem performAll_stable_indices (calls : list Call) (sim : SimulationSystem) :
  let sim' := performAll calls sim in
  set_Particles sim' (m_Particles sim) = sim
  /\ (length (m_Particles sim) <= length (m_Particles sim'))%nat
  /\ firstn (length (m_Particles sim)) (m_Particles sim') = m_Particles sim
  /\ forall i p, nth_error (m_Particles sim) i = Some p ->
                 nth_error (m_Particles sim') i = Some p.
Proof.
  cbv zeta. destruct (performAll_spec calls sim) as (added & ->).
  rewrite set_Particles_twice. cbn [m_Particles set_Particles].
  split; [apply set_Particles_same|]. split; [rewrite length_app; lia|].
  split.
  - rewrite firstn_app, firstn_all, Nat.sub_diag. simpl. apply app_nil_r.
  - intros i p Hi. rewrite nth_error_app1; [assumption|].
    apply nth_error_Some. congruence.
Qed.

(** The view matrix and the pixel scale read the configuration only: no
    sequence of insertions changes either. *)
Theorem view_unchanged_by_calls (calls : list Call) (sim : SimulationSystem)
    (aspectRatio simulationBorderOffset pixelDistance : Q) :
  GetViewMatrix (performAll calls sim) aspectRatio simulationBorderOffset
  = GetViewMatrix sim aspectRatio simulationBorderOffset
  /\ PixelToSimulationDistance (performAll calls sim) pixelDistance
     = PixelToSimulationDistance sim pixelDistance.
Proof.
  destruct (performAll_spec calls sim) as (added & ->). split; reflexivity.
Qed.

(** ** The outcome of a grid request does not look at the store *)

Lemma AddParticleGrid_any_store (sim : SimulationSystem) (ps : list Particle) (rows cols : Z)
    (bottomLeft topRight spacing : glm.vec2) (m : Q) :
  let r := AddParticleGrid sim rows cols bottomLeft topRight spacing m in
  AddParticleGrid (set_Particles sim ps) rows cols bottomLeft topRight spacing m
  = (set_Particles sim (ps ++ appended sim (fst r)), snd r).
Proof.
  cbv zeta. unfold AddParticleGrid. cbv zeta.
  change (gridBottomLeft (set_Particles sim ps)) with (gridBottomLeft sim).
  change (gridTopRight (set_Particles sim ps)) with (gridTopRight sim).
  change (requiredWidth (set_Particles sim ps)) with (requiredWidth sim).
  change (requiredHeight (set_Particles sim ps)) with (requiredHeight sim).
  change (tooManyParticles (set_Particles sim ps)) with (tooManyParticles sim).
  change (finalSpacing (set_Particles sim ps)) with (finalSpacing sim).
  change (minRequiredSpacing (set_Particles sim ps)) with (minRequiredSpacing sim).
  change (availableSpace (set_Particles sim ps)) with (availableSpace sim).
  change (cellPosition (set_Particles sim ps)) with (cellPosition sim).
  change (m_ParticleRadius (set_Particles sim ps)) with (m_ParticleRadius sim).
  repeat match goal with
  | |- context [if ?b then _ else _] => destruct b
  end; cbn [fst snd]; rewrite ?appended_same, ?app_nil_r; try reflexivity.
  rewrite !fillRows_grid, appended_app. reflexivity.
Qed.

(** A request that was accepted is accepted again when repeated, and appends
    the same grid a second time: nothing compares the new particles with
    those already stored, so every cell then holds two particles at the same
    position. *)
Theorem AddParticleGrid_repeat_duplicates (sim : SimulationSystem) (rows cols : Z)
    (bottomLeft topRight spacing : glm.vec2) (m : Q) :
  let r1 := AddParticleGrid sim rows cols bottomLeft topRight spacing m in
  let r2 := AddParticleGrid (fst r1) rows cols bottomLeft topRight spacing m in
  let grid := gridParticles rows cols
                (cellPosition sim rows cols bottomLeft topRight spacing) m in
  accepted r1 = true ->
  accepted r2 = true
  /\ snd r2 = snd r1
  /\ m_Particles (fst r2) = m_Particles sim ++ grid ++ grid
  /\ forall k p, nth_error grid k = Some p ->
       nth_error (m_Particles (fst r2)) (length (m_Particles sim) + k) = Some p
       /\ nth_error (m_Particles (fst r2))
            (length (m_Particles sim) + length grid + k) = Some p.
Proof.
  intros r1 r2 grid Hacc.
  destruct (AddParticleGrid_cases sim rows cols bottomLeft topRight spacing m)
    as [(_ & Ha & _) | (_ & _ & _ & Hs)]; [subst r1; congruence|].
  fold r1 grid in Hs.
  assert (E2 : r2 = (set_Particles sim ((m_Particles sim ++ grid) ++ grid), snd r1)).
  { subst r2. rewrite Hs.
    rewrite (AddParticleGrid_any_store sim (m_Particles sim ++ grid)).
    fold r1. rewrite Hs, appended_app. reflexivity. }
  rewrite E2. cbn [fst snd m_Particles set_Particles].
  split; [exact Hacc|]. split; [reflexivity|]. split; [now rewrite <- app_assoc|].
  intros k p Hk.
  assert (Hlt : (k < length grid)%nat) by (apply nth_error_Some; congruence).
  split.
  - rewrite nth_error_app1 by (rewrite length_app; lia).
    rewrite nth_error_app2 by lia.
    replace (length (m_Particles sim) + k - length (m_Particles sim))%nat with k by lia.
    exact Hk.
  - rewrite nth_error_app2 by (rewrite length_app; lia).
    rewrite length_app.
    replace (length (m_Particles sim) + length grid + k
             - (length (m_Particles sim) + length grid))%nat with k by lia.
    exact Hk.
Qed.

Lemma AddParticleGrid_repeat_duplicates_witness :
  accepted (appGrid 2 2 (glm.mkvec2 0 0)) = true
  /\ accepted (AddParticleGrid (fst (appGrid 2 2 (glm.mkvec2 0 0))) 2 2
                appBottomLeft appTopRight (glm.mkvec2 0 0) 1) = true.
Proof.
  assert (Ha : accepted (appGrid 2 2 (glm.mkvec2 0 0)) = true) by reflexivity.
  split; [exact Ha|].
  exact (proj1 (AddParticleGrid_repeat_duplicates appSim 2 2
                  appBottomLeft appTopRight (glm.mkvec2 0 0) 1 Ha)).
Defined.

(** ** Clipping the request beforehand changes nothing *)

Lemma fmax_idem (a b : Q) : glm.fmax (glm.fmax a b) b = glm.fmax a b.
Proof.
  unfold glm.fmax. destruct (Qltb a b) eqn:E.
  - destruct (Qltb b b) eqn:E'; reflexivity.
  - rewrite E. reflexivity.
Qed.

Lemma fmin_idem (a b : Q) : glm.fmin (glm.fmin a b) b = glm.fmin a b.
Proof.
  unfold glm.fmin. destruct (Qltb b a) eqn:E.
  - destruct (Qltb b b) eqn:E'; reflexivity.
  - rewrite E. reflexivity.
Qed.

Lemma gridBottomLeft_idem (sim : SimulationSystem) (bl : glm.vec2) :
  gridBottomLeft sim (gridBottomLeft sim bl) = gridBottomLeft sim bl.
Proof.
  unfold gridBottomLeft, glm.max. cbn [glm.x glm.y]. now rewrite !fmax_idem.
Qed.

Lemma gridTopRight_idem (sim : SimulationSystem) (tr : glm.vec2) :
  gridTopRight sim (gridTopRight sim tr) = gridTopRight sim tr.
Proof.
  unfold gridTopRight, glm.min. cbn [glm.x glm.y]. now rewrite !fmin_idem.
Qed.

(** [AddParticleGrid] sees the requested rectangle only through its
    intersection with the inset domain: asking for the shrunk rectangle
    itself gives the same system and the same messages. *)
Theorem AddParticleGrid_clipped_request (sim : SimulationSystem) (rows cols : Z)
    (bottomLeft topRight spacing : glm.vec2) (m : Q) :
  AddParticleGrid sim rows cols
    (gridBottomLeft sim bottomLeft) (gridTopRight sim topRight) spacing m
  = AddParticleGrid sim rows cols bottomLeft topRight spacing m.
Proof.
  unfold AddParticleGrid, tooManyParticles, cellPosition, startPos, gridSize,
    finalSpacing, availableSpace.
  rewrite !gridBottomLeft_idem, !gridTopRight_idem. reflexivity.
Qed.

(** ** Acceptance is passing every test *)

Lemma accepted_iff_gridFits (sim : SimulationSystem) (rows cols : Z)
    (bottomLeft topRight spacing : glm.vec2) (m : Q) :
  accepted (AddParticleGrid sim rows cols bottomLeft topRight spacing m) = true
  <-> gridFits sim rows cols bottomLeft topRight spacing.
Proof.
  destruct (AddParticleGrid_cases sim rows cols bottomLeft topRight spacing m)
    as [(_ & Ha & _ & Hno) | (Ha & _ & Hfit & _)].
  - split; [congruence | contradiction].
  - tauto.
Qed.

(** ** The window title *)

Lemma String_length_append (s1 s2 : String.string) :
  String.length (String.append s1 s2) = (String.length s1 + String.length s2)%nat.
Proof.
  induction s1 as [|c s1 IH]; simpl; [reflexivity | now rewrite IH].
Qed.

(** The status indicator is [Good] from 57 frames per second, [Average] from
    48 and [Poor] below; the three indicators are 11 characters wide, so the
    width of the title depends on the application name and the four
    formatted readings only, never on the status shown. *)
Theorem UpdateWindowTitle_fixed_width
    (fpsBuffer avgFpsBuffer mspfBuffer avgMspfBuffer appName : String.string) (avgFPS : Q) :
  let title := UpdateWindowTitle fpsBuffer avgFpsBuffer mspfBuffer avgMspfBuffer avgFPS appName in
  String.length title
  = (String.length appName + String.length fpsBuffer + String.length avgFpsBuffer
     + String.length mspfBuffer + String.length avgMspfBuffer + 42)%nat
  /\ (exists head, title = String.append head (statusIndicator avgFPS)
                   /\ forall avgFPS',
                        UpdateWindowTitle fpsBuffer avgFpsBuffer mspfBuffer avgMspfBuffer
                          avgFPS' appName
                        = String.append head (statusIndicator avgFPS'))
  /\ (57 <= avgFPS <-> statusIndicator avgFPS = " [Good]    "%string)
  /\ (48 <= avgFPS /\ avgFPS < 57 <-> statusIndicator avgFPS = " [Average] "%string)
  /\ (avgFPS < 48 <-> statusIndicator avgFPS = " [Poor]    "%string).
Proof.
  cbv zeta.
  assert (Hlen : String.length (statusIndicator avgFPS) = 11%nat).
  { unfold statusIndicator. repeat destruct (Qle_bool _ _); reflexivity. }
  split; [|split].
  - unfold UpdateWindowTitle. rewrite !String_length_append, Hlen. simpl. lia.
  - eexists. split; [reflexivity|]. intros avgFPS'. reflexivity.
  - unfold statusIndicator, targetFPS.
    destruct (Qle_bool (60 * (95 # 100)) avgFPS) eqn:E1;
      destruct (Qle_bool (60 * (8 # 10)) avgFPS) eqn:E2;
      prop_of_tests; repeat split; intros; try discriminate; try reflexivity; lra.
Qed.

(** ** The title refresh counter *)

Lemma titleFrames_from (n : nat) :
  forall (c k : nat), (c < 76)%nat ->
    titleFrames n (Z.of_nat c) k
    = (Z.of_nat ((c + n) mod 76), (k + (c + n) / 76)%nat).
Proof.
  induction n as [|n IH]; intros c k Hc.
  - cbn [titleFrames]. rewrite Nat.add_0_r, Nat.mod_small, Nat.div_small by assumption.
    now rewrite Nat.add_0_r.
  - cbn [titleFrames]. unfold titleTick.
    destruct (75 <? Z.of_nat c + 1)%Z eqn:E; prop_of_tests.
    + assert (c = 75%nat) by lia. subst c.
      change 0%Z with (Z.of_nat 0). rewrite (IH 0%nat (S k)) by lia.
      replace (75 + S n)%nat with (n + 1 * 76)%nat by lia.
      rewrite Nat.Div0.mod_add, Nat.div_add by lia.
      cbn [Nat.add]. f_equal. lia.
    + replace (Z.of_nat c + 1)%Z with (Z.of_nat (S c)) by lia.
      rewrite (IH (S c) k) by lia.
      replace (S c + n)%nat with (c + S n)%nat by lia. reflexivity.
Qed.

(** The main loop refreshes the window title on every 76th pass, not every
    75th: after [n] passes from a counter at 0 the title has been refreshed
    [n / 76] times and the counter stands at [n mod 76], so it never leaves
    the range 0..75. *)
Theorem titleFrames_period (n : nat) :
  titleFrames n 0%Z 0%nat = (Z.of_nat (n mod 76), (n / 76)%nat)
  /\ (0 <= fst (titleFrames n 0%Z 0%nat) <= 75)%Z.
Proof.
  pose proof (titleFrames_from n 0%nat 0%nat ltac:(lia)) as H.
  cbn [Z.of_nat Nat.add] in H. rewrite H. split; [reflexivity|].
  cbn [fst]. pose proof (Nat.mod_upper_bound n 76). lia.
Qed.

(** ** A larger rectangle accepts what a smaller one accepts *)

Lemma fmax_mono (a a' b : Q) : a' <= a -> glm.fmax a' b <= glm.fmax a b.
Proof.
  intros H. unfold glm.fmax.
  destruct (Qltb a' b) eqn:E1; destruct (Qltb a b) eqn:E2; prop_of_tests; lra.
Qed.

Lemma fmin_mono (a a' b : Q) : a <= a' -> glm.fmin a b <= glm.fmin a' b.
Proof.
  intros H. unfold glm.fmin.
  destruct (Qltb b a) eqn:E1; destruct (Qltb b a') eqn:E2; prop_of_tests; lra.
Qed.

Lemma Qdiv_le_mono (a a' d : Q) : 0 < d -> a <= a' -> a / d <= a' / d.
Proof.
  intros Hd Ha.
  assert (Hn : ~ d == 0) by lra.
  pose proof (Qdiv_mul_cancel a d Hn). pose proof (Qdiv_mul_cancel a' d Hn).
  set (q := a / d) in *. set (q' := a' / d) in *. nra.
Qed.

Lemma axisSpacing_mono (count : Z) (requested lo hi lo' hi' : Q) :
  (1 < count)%Z -> hi - lo <= hi' - lo' ->
  axisSpacing count requested lo hi <= axisSpacing count requested lo' hi'.
Proof.
  intros Hc Hle. unfold axisSpacing.
  destruct (count =? 1)%Z; [lra|].
  destruct (Qltb 0 requested); [lra|].
  apply Qdiv_le_mono; [now apply axis_gaps_pos | exact Hle].
Qed.

(** With a non-negative radius, a request accepted for one rectangle is
    accepted, with the same counts and spacing, for every rectangle that
    contains it. *)
Theorem AddParticleGrid_monotone (sim : SimulationSystem) (rows cols : Z)
    (bottomLeft topRight bottomLeft' topRight' spacing : glm.vec2) (m : Q) :
  0 <= m_ParticleRadius sim ->
  glm.x bottomLeft' <= glm.x bottomLeft -> glm.y bottomLeft' <= glm.y bottomLeft ->
  glm.x topRight <= glm.x topRight' -> glm.y topRight <= glm.y topRight' ->
  accepted (AddParticleGrid sim rows cols bottomLeft topRight spacing m) = true ->
  accepted (AddParticleGrid sim rows cols bottomLeft' topRight' spacing m) = true.
Proof.
  intros Hrad Hbx Hby Htx Hty Hacc.
  apply accepted_iff_gridFits in Hacc. apply accepted_iff_gridFits.
  destruct Hacc as (Hrows & Hcols & Hx & Hy & Hw & Hh & Htm & Hsx & Hsy).
  assert (Bx : glm.x (gridBottomLeft sim bottomLeft') <= glm.x (gridBottomLeft sim bottomLeft))
    by (apply fmax_mono; exact Hbx).
  assert (By : glm.y (gridBottomLeft sim bottomLeft') <= glm.y (gridBottomLeft sim bottomLeft))
    by (apply fmax_mono; exact Hby).
  assert (Tx : glm.x (gridTopRight sim topRight) <= glm.x (gridTopRight sim topRight'))
    by (apply fmin_mono; exact Htx).
  assert (Ty : glm.y (gridTopRight sim topRight) <= glm.y (gridTopRight sim topRight'))
    by (apply fmin_mono; exact Hty).
  unfold gridFits, minRequiredSpacing in *.
  destruct (finalSpacing_axes sim rows cols bottomLeft topRight spacing) as [Fx Fy].
  destruct (finalSpacing_axes sim rows cols bottomLeft' topRight' spacing) as [Fx' Fy'].
  rewrite Fx in Hsx. rewrite Fy in Hsy. rewrite Fx', Fy'.
  unfold tooManyParticles in *.
  change (glm.x (availableSpace sim bottomLeft topRight))
    with (glm.x (gridTopRight sim topRight) - glm.x (gridBottomLeft sim bottomLeft)) in *.
  change (glm.y (availableSpace sim bottomLeft topRight))
    with (glm.y (gridTopRight sim topRight) - glm.y (gridBottomLeft sim bottomLeft)) in *.
  change (glm.x (availableSpace sim bottomLeft' topRight'))
    with (glm.x (gridTopRight sim topRight') - glm.x (gridBottomLeft sim bottomLeft')).
  change (glm.y (availableSpace sim bottomLeft' topRight'))
    with (glm.y (gridTopRight sim topRight') - glm.y (gridBottomLeft sim bottomLeft')).
  set (ax := glm.x (gridTopRight sim topRight) - glm.x (gridBottomLeft sim bottomLeft)) in *.
  set (ay := glm.y (gridTopRight sim topRight) - glm.y (gridBottomLeft sim bottomLeft)) in *.
  set (ax' := glm.x (gridTopRight sim topRight') - glm.x (gridBottomLeft sim bottomLeft')).
  set (ay' := glm.y (gridTopRight sim topRight') - glm.y (gridBottomLeft sim bottomLeft')).
  assert (Ax : ax <= ax') by (subst ax ax'; lra).
  assert (Ay : ay <= ay') by (subst ay ay'; lra).
  assert (Px : 0 < ax) by (subst ax; lra).
  assert (Py : 0 < ay) by (subst ay; lra).
  split; [exact Hrows|]. split; [exact Hcols|].
  split; [lra|]. split; [lra|]. split; [lra|]. split; [lra|].
  split; [|split].
  - destruct (Qeq_bool (2 * m_ParticleRadius sim) 0) eqn:E0; [reflexivity|].
    prop_of_tests. apply Qltb_false.
    assert (Hd : 0 < 2 * m_ParticleRadius sim) by lra.
    pose proof (Qdiv_le_mono ax ax' _ Hd Ax) as Qx.
    pose proof (Qdiv_le_mono ay ay' _ Hd Ay) as Qy.
    assert (Zx : 0 < ax / (2 * m_ParticleRadius sim)) by (apply Qlt_shift_div_l; lra).
    assert (Zy : 0 < ay / (2 * m_ParticleRadius sim)) by (apply Qlt_shift_div_l; lra).
    set (qx := ax / (2 * m_ParticleRadius sim)) in *.
    set (qy := ay / (2 * m_ParticleRadius sim)) in *.
    set (qx' := ax' / (2 * m_ParticleRadius sim)) in *.
    set (qy' := ay' / (2 * m_ParticleRadius sim)) in *.
    nra.
  - intros Hc. specialize (Hsx Hc).
    eapply Qle_trans; [exact Hsx|]. apply axisSpacing_mono; [exact Hc | exact Ax].
  - intros Hr. specialize (Hsy Hr).
    eapply Qle_trans; [exact Hsy|]. apply axisSpacing_mono; [exact Hr | exact Ay].
Qed.

Lemma AddParticleGrid_monotone_witness :
  0 <= m_ParticleRadius appSim
  /\ accepted (AddParticleGrid appSim 3 2 (glm.mkvec2 (-100) (-100)) (glm.mkvec2 100 100)
                 (glm.mkvec2 25 30) 1) = true
  /\ accepted (AddParticleGrid appSim 3 2 (glm.mkvec2 (-200) (-150)) (glm.mkvec2 100 300)
                 (glm.mkvec2 25 30) 1) = true.
Proof.
  assert (Hr : 0 <= m_ParticleRadius appSim) by (vm_compute; discriminate).
  assert (Ha : accepted (AddParticleGrid appSim 3 2 (glm.mkvec2 (-100) (-100))
                           (glm.mkvec2 100 100) (glm.mkvec2 25 30) 1) = true)
    by reflexivity.
  split; [exact Hr | split; [exact Ha|]].
  refine (AddParticleGrid_monotone appSim 3 2 (glm.mkvec2 (-100) (-100)) (glm.mkvec2 100 100)
            (glm.mkvec2 (-200) (-150)) (glm.mkvec2 100 300) (glm.mkvec2 25 30) 1
            Hr _ _ _ _ Ha); vm_compute; discriminate.
Defined.

(** * The program on single-precision numbers *)

(** ** Facts of binary32 arithmetic the statements use *)

Lemma F32_compare_antisym (a b : F32.float) :
  SFcompare b a = option_map CompOpp (SFcompare a b).
Proof.
  destruct a as [sa|sa| |sa ma ea], b as [sb|sb| |sb mb eb]; simpl;
    try reflexivity; try (destruct sa; reflexivity); try (destruct sb; reflexivity);
    try (destruct sa, sb; reflexivity).
  assert (Hm : Pos.compare_cont Eq mb ma = CompOpp (Pos.compare_cont Eq ma mb))
    by (rewrite Pos.compare_cont_antisym; reflexivity).
  destruct sa, sb; simpl; try reflexivity;
    rewrite (Z.compare_antisym ea eb); destruct (ea ?= eb)%Z; simpl; try reflexivity;
    rewrite Hm; destruct (Pos.compare_cont Eq ma mb); reflexivity.
Qed.

Lemma F32_ltb_irrefl (a : F32.float) : F32.ltb a a = false.
Proof.
  unfold F32.ltb, SFltb. pose proof (F32_compare_antisym a a) as H.
  destruct (SFcompare a a) as [[| |]|]; simpl in H; try reflexivity; discriminate.
Qed.

Lemma F32_ltb_asym (a b : F32.float) : F32.ltb a b = true -> F32.ltb b a = false.
Proof.
  unfold F32.ltb, SFltb. rewrite (F32_compare_antisym a b).
  destruct (SFcompare a b) as [[| |]|]; simpl; intros H; try reflexivity; discriminate.
Qed.

Lemma F32_mul_comm (a b : F32.float) : F32.mul a b = F32.mul b a.
Proof.
  unfold F32.mul.
  destruct a as [sa|sa| |sa ma ea], b as [sb|sb| |sb mb eb]; simpl;
    rewrite ?(xorb_comm sa sb); try reflexivity.
  now rewrite (Pos.mul_comm ma mb), (Z.add_comm ea eb).
Qed.

Lemma F32_sub_zero (a : F32.float) : F32.sub a F32.zero = a.
Proof. destruct a as [[|]|[|]| |s m e]; reflexivity. Qed.

(** Adding zero times a finite value changes nothing, negative zero apart. *)
Lemma F32_add_zero_times (a s : F32.float) :
  F32.is_finite s = true -> a <> S754_zero true ->
  F32.add a (F32.mul (F32.of_int 0) s) = a.
Proof.
  intros Hs Ha.
  destruct s as [b|b| |b m e]; try discriminate;
    destruct a as [[|]|sa| |sa ma ea]; try reflexivity; try congruence;
    destruct b; reflexivity.
Qed.

Lemma F32_fmax_bounds (a b : F32.float) :
  F32.ltb (F32.fmax a b) a = false /\ F32.ltb (F32.fmax a b) b = false
  /\ (F32.fmax a b = a \/ F32.fmax a b = b).
Proof.
  unfold F32.fmax. destruct (F32.ltb a b) eqn:E.
  - repeat split; [now apply F32_ltb_asym | apply F32_ltb_irrefl | now right].
  - repeat split; [apply F32_ltb_irrefl | exact E | now left].
Qed.

Lemma F32_fmin_bounds (a b : F32.float) :
  F32.ltb a (F32.fmin a b) = false /\ F32.ltb b (F32.fmin a b) = false
  /\ (F32.fmin a b = a \/ F32.fmin a b = b).
Proof.
  unfold F32.fmin. destruct (F32.ltb b a) eqn:E.
  - repeat split; [now apply F32_ltb_asym | apply F32_ltb_irrefl | now right].
  - repeat split; [apply F32_ltb_irrefl | exact E | now left].
Qed.

(** ** The loops append the full grid *)

Lemma F32_set_Particles_same (sim : F32.SimulationSystem) :
  F32.set_Particles sim (F32.m_Particles sim) = sim.
Proof. destruct sim; reflexivity. Qed.

Lemma F32_fillColumns_spec (n : nat) :
  forall (col : Z) (pos : Z -> F32.vec2) (m : F32.float) (sim : F32.SimulationSystem),
    F32.fillColumns n col pos m sim
    = F32.set_Particles sim
        (F32.m_Particles sim ++ map (fun c => F32.mkParticle (pos c) m) (zseq col n)).
Proof.
  induction n as [|n IH]; intros col pos m sim; cbn [F32.fillColumns zseq map].
  - rewrite app_nil_r. symmetry. apply F32_set_Particles_same.
  - rewrite IH. unfold F32.AddParticle, F32.push_back.
    cbn [F32.set_Particles F32.m_Particles F32.m_bottomLeft F32.m_topRight
         F32.m_ParticleRadius F32.m_Zoom F32.m_WindowWidth F32.m_SimHeight F32.m_SimWidth].
    now rewrite <- app_assoc.
Qed.

Lemma F32_fillRows_spec (n : nat) :
  forall (row cols : Z) (pos : Z -> Z -> F32.vec2) (m : F32.float)
         (sim : F32.SimulationSystem),
    F32.fillRows n row cols pos m sim
    = F32.set_Particles sim
        (F32.m_Particles sim
         ++ flat_map (fun r => F32.rowParticles cols (pos r) m) (zseq row n)).
Proof.
  induction n as [|n IH]; intros row cols pos m sim; cbn [F32.fillRows zseq flat_map].
  - rewrite app_nil_r. symmetry. apply F32_set_Particles_same.
  - rewrite IH, F32_fillColumns_spec. unfold F32.rowParticles.
    cbn [F32.set_Particles F32.m_Particles F32.m_bottomLeft F32.m_topRight
         F32.m_ParticleRadius F32.m_Zoom F32.m_WindowWidth F32.m_SimHeight F32.m_SimWidth].
    now rewrite <- app_assoc.
Qed.

Lemma F32_fillRows_grid (rows cols : Z) (pos : Z -> Z -> F32.vec2) (m : F32.float)
    (sim : F32.SimulationSystem) :
  F32.fillRows (Z.to_nat rows) 0%Z cols pos m sim
  = F32.set_Particles sim (F32.m_Particles sim ++ F32.gridParticles rows cols pos m).
Proof. apply F32_fillRows_spec. Qed.

Lemma F32_length_rowParticles (cols : Z) (pos : Z -> F32.vec2) (m : F32.float) :
  length (F32.rowParticles cols pos m) = Z.to_nat cols.
Proof. unfold F32.rowParticles. now rewrite length_map, length_zseq. Qed.

Lemma F32_length_gridParticles (rows cols : Z) (pos : Z -> Z -> F32.vec2) (m : F32.float) :
  length (F32.gridParticles rows cols pos m) = (Z.to_nat rows * Z.to_nat cols)%nat.
Proof.
  unfold F32.gridParticles.
  rewrite (length_flat_uniform _ (Z.to_nat cols)).
  - now rewrite length_zseq.
  - intros a. apply F32_length_rowParticles.
Qed.

Lemma F32_nth_error_gridParticles (rows cols : Z) (pos : Z -> Z -> F32.vec2) (m : F32.float)
    (row col : Z) :
  (0 <= row < rows)%Z -> (0 <= col < cols)%Z ->
  nth_error (F32.gridParticles rows cols pos m) (Z.to_nat (row * cols + col))
  = Some (F32.mkParticle (pos row col) m).
Proof.
  intros Hrow Hcol. unfold F32.gridParticles.
  replace (Z.to_nat (row * cols + col))
    with (Z.to_nat row * Z.to_nat cols + Z.to_nat col)%nat by nia.
  rewrite (nth_error_flat_uniform _ (Z.to_nat cols)) with (a := row).
  - unfold F32.rowParticles. rewrite nth_error_map, nth_error_zseq by lia.
    simpl. do 3 f_equal. lia.
  - intros a. apply F32_length_rowParticles.
  - rewrite nth_error_zseq by lia. f_equal. lia.
  - lia.
Qed.

Lemma F32_appended_app (sim : F32.SimulationSystem) (ps : list F32.Particle) :
  F32.appended sim (F32.set_Particles sim (F32.m_Particles sim ++ ps)) = ps.
Proof.
  unfold F32.appended. simpl. rewrite skipn_app, skipn_all, Nat.sub_diag. reflexivity.
Qed.

Lemma F32_appended_same (sim : F32.SimulationSystem) : F32.appended sim sim = [].
Proof. unfold F32.appended. apply skipn_all. Qed.

(** ** The outcomes of [AddParticleGrid] *)

Lemma F32_AddParticleGrid_cases (sim : F32.SimulationSystem) (rows cols : Z)
    (bottomLeft topRight spacing : F32.vec2) (m : F32.float) :
  let r := F32.AddParticleGrid sim rows cols bottomLeft topRight spacing m in
  (F32.rejected r = true /\ F32.accepted r = false /\ fst r = sim
   /\ ~ F32.gridFits sim rows cols bottomLeft topRight spacing)
  \/
  (F32.accepted r = true /\ F32.rejected r = false
   /\ F32.gridFits sim rows cols bottomLeft topRight spacing
   /\ fst r = F32.set_Particles sim
               (F32.m_Particles sim
                ++ F32.gridParticles rows cols
                     (F32.cellPosition sim rows cols bottomLeft topRight spacing) m)).
Proof.
  unfold F32.AddParticleGrid, F32.gridFits. cbv zeta.
  change (F32.x (F32.availableSpace sim bottomLeft topRight))
    with (F32.sub (F32.x (F32.gridTopRight sim topRight))
                  (F32.x (F32.gridBottomLeft sim bottomLeft))).
  change (F32.y (F32.availableSpace sim bottomLeft topRight))
    with (F32.sub (F32.y (F32.gridTopRight sim topRight))
                  (F32.y (F32.gridBottomLeft sim bottomLeft))).
  destruct ((rows <=? 0)%Z || (cols <=? 0)%Z) eqn:E1.
  { left. repeat split; try reflexivity.
    intros (Hr & Hc & _). apply orb_true_iff in E1. destruct E1; prop_of_tests; lia. }
  apply orb_false_iff in E1. destruct E1 as [E1r E1c]. prop_of_tests.
  destruct (F32.leb _ _ || F32.leb _ _) eqn:E2.
  { left. repeat split; try reflexivity.
    intros (_ & _ & Hx & Hy & _). rewrite Hx, Hy in E2. discriminate. }
  apply orb_false_iff in E2. destruct E2 as [E2x E2y].
  destruct (F32.ltb _ _ || F32.ltb _ _) eqn:E3.
  { left. repeat split; try reflexivity.
    intros (_ & _ & _ & _ & Hw & Hh & _). rewrite Hw, Hh in E3. discriminate. }
  apply orb_false_iff in E3. destruct E3 as [E3x E3y].
  destruct (F32.tooManyParticles _ _ _ _ _) eqn:E4.
  { left. repeat split; try reflexivity.
    intros (_ & _ & _ & _ & _ & _ & Ht & _). discriminate. }
  destruct ((_ && _) || (_ && _)) eqn:E5.
  { left. repeat split; try reflexivity.
    intros (_ & _ & _ & _ & _ & _ & _ & Hsx & Hsy).
    apply orb_true_iff in E5. destruct E5 as [E5|E5];
      apply andb_true_iff in E5; destruct E5 as [Ec El]; prop_of_tests.
    - rewrite (Hsx Ec) in El. discriminate.
    - rewrite (Hsy Ec) in El. discriminate. }
  apply orb_false_iff in E5. destruct E5 as [E5x E5y].
  right. rewrite F32_fillRows_grid. cbn [fst snd].
  repeat split; try reflexivity; try assumption.
  - intros Hc. apply andb_false_iff in E5x. destruct E5x as [E|E]; [|exact E].
    prop_of_tests. lia.
  - intros Hr. apply andb_false_iff in E5y. destruct E5y as [E|E]; [|exact E].
    prop_of_tests. lia.
Qed.

Lemma F32_accepted_iff_gridFits (sim : F32.SimulationSystem) (rows cols : Z)
    (bottomLeft topRight spacing : F32.vec2) (m : F32.float) :
  F32.accepted (F32.AddParticleGrid sim rows cols bottomLeft topRight spacing m) = true
  <-> F32.gridFits sim rows cols bottomLeft topRight spacing.
Proof.
  destruct (F32_AddParticleGrid_cases sim rows cols bottomLeft topRight spacing m)
    as [(_ & Ha & _ & Hno) | (Ha & _ & Hfit & _)].
  - split; [congruence | contradiction].
  - tauto.
Qed.

Lemma F32_rejected_unchanged (sim : F32.SimulationSystem) (rows cols : Z)
    (bottomLeft topRight spacing : F32.vec2) (m : F32.float) :
  ~ F32.gridFits sim rows cols bottomLeft topRight spacing ->
  let r := F32.AddParticleGrid sim rows cols bottomLeft topRight spacing m in
  F32.rejected r = true /\ fst r = sim /\ F32.appended sim (fst r) = [].
Proof.
  intros Hno r.
  destruct (F32_AddParticleGrid_cases sim rows cols bottomLeft topRight spacing m)
    as [(Hr & Ha & Hs & _) | (_ & _ & Hfit & _)]; [|contradiction].
  subst r. rewrite Hs. repeat split; [assumption | apply F32_appended_same].
Qed.

Lemma F32_accepted_grid (sim : F32.SimulationSystem) (rows cols : Z)
    (bottomLeft topRight spacing : F32.vec2) (m : F32.float) :
  let r := F32.AddParticleGrid sim rows cols bottomLeft topRight spacing m in
  F32.accepted r = true ->
  F32.gridFits sim rows cols bottomLeft topRight spacing
  /\ F32.appended sim (fst r)
     = F32.gridParticles rows cols
         (F32.cellPosition sim rows cols bottomLeft topRight spacing) m.
Proof.
  intros r Hacc.
  destruct (F32_AddParticleGrid_cases sim rows cols bottomLeft topRight spacing m)
    as [(_ & Ha & _) | (_ & _ & Hfit & Hs)].
  - subst r. congruence.
  - split; [assumption|]. subst r. rewrite Hs. apply F32_appended_app.
Qed.

(** ** Concrete runs in single precision

    The scenario of the spec's section 8 again: every number in it is a
    whole number below 2^24, so the single-precision run stores the same
    positions and prints the same sizes as the exact one. *)

Example f32_grid_2x2_positions :
  map F32.position (F32.m_Particles (fst (appGrid32 2 2)))
  = [f32vec (-990) (-740); f32vec 990 (-740); f32vec (-990) 740; f32vec 990 740]
  /\ snd (appGrid32 2 2) = [F32.OutAvailable (f32vec 1980 1480); F32.OutCreated 2 2].
Proof. split; vm_compute; reflexivity. Qed.

Example f32_grid_100x100_refused :
  fst (appGrid32 100 100) = appSim32
  /\ snd (appGrid32 100 100)
     = [F32.ErrNotFit 100 100 (F32.of_int 10) (f32vec 0 0) (f32vec 2000 2000)
          (f32vec 1980 1480)].
Proof. split; vm_compute; reflexivity. Qed.

(** ** The footprint test *)

(** C3, as the spec states it, fails here: two columns of radius 10 with
    requested spacing [20.1f] in the rectangle from (0, 0) to ([60.1f], 100).
    The shrunk rectangle is the requested one, the footprint
    [cols * (2 r) + (cols - 1) * spacing.x] exceeds its extent, and yet the
    request is accepted and two particles are stored: the sum the code
    computes, [40 + 20.1f], rounds to [60.1f], the extent itself. *)
Lemma f32_footprint_exceeds_accepted :
  F32.gridBottomLeft appSim32 (f32vec 0 0) = F32.mkvec2 F32.zero F32.zero
  /\ F32.gridTopRight appSim32 (F32.mkvec2 f32_60_1 (F32.of_int 100))
     = F32.mkvec2 f32_60_1 (F32.of_int 100)
  /\ (F32.F2Q f32_60_1 - F32.F2Q F32.zero
      < 2 * (2 * F32.F2Q (F32.m_ParticleRadius appSim32)) + (2 - 1) * F32.F2Q f32_20_1)%Q
  /\ F32.requiredWidth appSim32 2 (F32.mkvec2 f32_20_1 F32.zero) = f32_60_1
  /\ F32.accepted (F32.AddParticleGrid appSim32 1 2 (f32vec 0 0)
                     (F32.mkvec2 f32_60_1 (F32.of_int 100))
                     (F32.mkvec2 f32_20_1 F32.zero) F32.one) = true
  /\ length (F32.appended appSim32
               (fst (F32.AddParticleGrid appSim32 1 2 (f32vec 0 0)
                       (F32.mkvec2 f32_60_1 (F32.of_int 100))
                       (F32.mkvec2 f32_20_1 F32.zero) F32.one))) = 2%nat.
Proof. vm_compute. repeat split. Qed.

(** C3 (amended): the placement rectangle is the requested one cut down, by
    [glm::max] and [glm::min], to the domain inset by one radius (the sum and
    the difference rounded), so it never reaches beyond the request nor
    beyond the inset domain as computed; the required footprint is
    [cols * (2 r) + (cols - 1) * spacing.x] by
    [rows * (2 r) + (rows - 1) * spacing.y] with every operation rounded to
    single precision (with a single column or row the spacing term is
    skipped, which gives the same value for a finite spacing); and a request
    whose computed footprint exceeds the computed extent of the shrunk
    rectangle on either axis is rejected and leaves the store as it was. *)
Theorem f32_AddParticleGrid_footprint_check (sim : F32.SimulationSystem) (rows cols : Z)
    (bottomLeft topRight spacing : F32.vec2) (m : F32.float) :
  let radius := F32.m_ParticleRadius sim in
  let gBL := F32.gridBottomLeft sim bottomLeft in
  let gTR := F32.gridTopRight sim topRight in
  let footprintW :=
    F32.add (F32.mul (F32.of_int cols) (F32.mul F32.two radius))
            (F32.mul (F32.of_int (cols - 1)) (F32.x spacing)) in
  let footprintH :=
    F32.add (F32.mul (F32.of_int rows) (F32.mul F32.two radius))
            (F32.mul (F32.of_int (rows - 1)) (F32.y spacing)) in
  let r := F32.AddParticleGrid sim rows cols bottomLeft topRight spacing m in
  (F32.x gBL = F32.fmax (F32.x bottomLeft) (F32.add (F32.x (F32.m_bottomLeft sim)) radius)
   /\ F32.y gBL = F32.fmax (F32.y bottomLeft) (F32.add (F32.y (F32.m_bottomLeft sim)) radius)
   /\ F32.x gTR = F32.fmin (F32.x topRight) (F32.sub (F32.x (F32.m_topRight sim)) radius)
   /\ F32.y gTR = F32.fmin (F32.y topRight) (F32.sub (F32.y (F32.m_topRight sim)) radius))
  /\ (F32.ltb (F32.x gBL) (F32.x bottomLeft) = false
      /\ F32.ltb (F32.x gBL) (F32.add (F32.x (F32.m_bottomLeft sim)) radius) = false
      /\ F32.ltb (F32.y gBL) (F32.y bottomLeft) = false
      /\ F32.ltb (F32.y gBL) (F32.add (F32.y (F32.m_bottomLeft sim)) radius) = false
      /\ F32.ltb (F32.x topRight) (F32.x gTR) = false
      /\ F32.ltb (F32.sub (F32.x (F32.m_topRight sim)) radius) (F32.x gTR) = false
      /\ F32.ltb (F32.y topRight) (F32.y gTR) = false
      /\ F32.ltb (F32.sub (F32.y (F32.m_topRight sim)) radius) (F32.y gTR) = false)
  /\ ((1 < cols)%Z -> F32.requiredWidth sim cols spacing = footprintW)
  /\ ((1 < rows)%Z -> F32.requiredHeight sim rows spacing = footprintH)
  /\ (cols = 1%Z -> F32.is_finite (F32.x spacing) = true ->
      F32.requiredWidth sim cols spacing <> S754_zero true ->
      F32.requiredWidth sim cols spacing = footprintW)
  /\ (rows = 1%Z -> F32.is_finite (F32.y spacing) = true ->
      F32.requiredHeight sim rows spacing <> S754_zero true ->
      F32.requiredHeight sim rows spacing = footprintH)
  /\ (F32.ltb (F32.sub (F32.x gTR) (F32.x gBL)) (F32.requiredWidth sim cols spacing) = true
      \/ F32.ltb (F32.sub (F32.y gTR) (F32.y gBL)) (F32.requiredHeight sim rows spacing) = true ->
      F32.rejected r = true /\ fst r = sim /\ F32.appended sim (fst r) = []).
Proof.
  cbv zeta.
  split; [repeat split|]. split.
  - unfold F32.gridBottomLeft, F32.gridTopRight.
    cbn [F32.vmax F32.vmin F32.vadd F32.vsub F32.splat F32.x F32.y].
    pose proof (F32_fmax_bounds (F32.x bottomLeft)
                  (F32.add (F32.x (F32.m_bottomLeft sim)) (F32.m_ParticleRadius sim))).
    pose proof (F32_fmax_bounds (F32.y bottomLeft)
                  (F32.add (F32.y (F32.m_bottomLeft sim)) (F32.m_ParticleRadius sim))).
    pose proof (F32_fmin_bounds (F32.x topRight)
                  (F32.sub (F32.x (F32.m_topRight sim)) (F32.m_ParticleRadius sim))).
    pose proof (F32_fmin_bounds (F32.y topRight)
                  (F32.sub (F32.y (F32.m_topRight sim)) (F32.m_ParticleRadius sim))).
    tauto.
  - split; [|split; [|split; [|split]]].
    + intros Hc. unfold F32.requiredWidth. cbv zeta.
      apply Z.ltb_lt in Hc. now rewrite Hc.
    + intros Hr. unfold F32.requiredHeight. cbv zeta.
      apply Z.ltb_lt in Hr. now rewrite Hr.
    + intros -> Hfin Hnz. unfold F32.requiredWidth in *. cbv zeta in *.
      change (1 <? 1)%Z with false in *. cbv iota in *.
      change (1 - 1)%Z with 0%Z. symmetry. now apply F32_add_zero_times.
    + intros -> Hfin Hnz. unfold F32.requiredHeight in *. cbv zeta in *.
      change (1 <? 1)%Z with false in *. cbv iota in *.
      change (1 - 1)%Z with 0%Z. symmetry. now apply F32_add_zero_times.
    + intros Hexceeds.
      apply F32_rejected_unchanged.
      intros (_ & _ & _ & _ & Hw & Hh & _).
      change (F32.x (F32.availableSpace sim bottomLeft topRight))
        with (F32.sub (F32.x (F32.gridTopRight sim topRight))
                      (F32.x (F32.gridBottomLeft sim bottomLeft))) in Hw.
      change (F32.y (F32.availableSpace sim bottomLeft topRight))
        with (F32.sub (F32.y (F32.gridTopRight sim topRight))
                      (F32.y (F32.gridBottomLeft sim bottomLeft))) in Hh.
      destruct Hexceeds as [E|E]; congruence.
Qed.

(** ** Layout of an accepted grid, as stored *)




(** ** Where rounding breaks the guarantees *)

(** C5 at a failing input: two columns with requested spacing 20, radius 10,
    in the rectangle from (0, 0) to (60.2f, 100).  The spacing test passes
    (the final spacing is the diameter), the request is accepted, and the two
    stored centers, in the same row, are less than one diameter apart. *)
Lemma f32_grid_overlap_after_rounding :
  F32.ltb (F32.x (F32.finalSpacing appSim32 1 2 (f32vec 0 0)
                    (F32.mkvec2 f32_60_2 (F32.of_int 100)) (f32vec 20 0)))
          (F32.minRequiredSpacing appSim32) = false
  /\ F32.accepted (F32.AddParticleGrid appSim32 1 2 (f32vec 0 0)
                     (F32.mkvec2 f32_60_2 (F32.of_int 100)) (f32vec 20 0) F32.one) = true
  /\ exists p q,
       F32.appended appSim32
         (fst (F32.AddParticleGrid appSim32 1 2 (f32vec 0 0)
                 (F32.mkvec2 f32_60_2 (F32.of_int 100)) (f32vec 20 0) F32.one))
       = [p; q]
       /\ F32.y (F32.position p) = F32.y (F32.position q)
       /\ (0 < F32.F2Q (F32.x (F32.position q)) - F32.F2Q (F32.x (F32.position p)))%Q
       /\ (F32.F2Q (F32.x (F32.position q)) - F32.F2Q (F32.x (F32.position p))
           < 2 * F32.F2Q (F32.m_ParticleRadius appSim32))%Q.
Proof.
  split; [vm_compute; reflexivity|]. split; [vm_compute; reflexivity|].
  eexists _, _. split; [vm_compute; reflexivity|].
  vm_compute. repeat split.
Qed.

(** C9 at a failing input: 24 columns over the whole domain of
    Application.cpp with zero requested spacing.  The request is accepted,
    the computed grid size is not below the available space, so the grid
    starts at the left side of the shrunk rectangle, and the last center lies
    beyond [m_topRight.x - radius = 990]. *)
Lemma f32_grid_center_beyond_inset :
  F32.accepted (appGrid32 1 24) = true
  /\ F32.ltb (F32.x (F32.gridSize appSim32 1 24 (f32vec (-1000) (-750)) (f32vec 1000 750)
                      (f32vec 0 0)))
             (F32.x (F32.availableSpace appSim32 (f32vec (-1000) (-750)) (f32vec 1000 750)))
     = false
  /\ exists p,
       nth_error (F32.appended appSim32 (fst (appGrid32 1 24))) 23 = Some p
       /\ F32.ltb (F32.sub (F32.x (F32.m_topRight appSim32)) (F32.m_ParticleRadius appSim32))
                  (F32.x (F32.position p)) = true
       /\ F32.ltb (F32.x (F32.gridTopRight appSim32 (f32vec 1000 750)))
                  (F32.x (F32.position p)) = true
       /\ (F32.F2Q (F32.x (F32.m_topRight appSim32)) - F32.F2Q (F32.m_ParticleRadius appSim32)
           < F32.F2Q (F32.x (F32.position p)))%Q.
Proof.
  split; [vm_compute; reflexivity|]. split; [vm_compute; reflexivity|].
  eexists. split; [vm_compute; reflexivity|].
  vm_compute. repeat split.
Qed.

(** ** The view transform, as computed *)





(** On the domain of Application.cpp, which is symmetric about the origin,
    at its zoom [0.7f] and aspect ratio 4/3, the view is centered
    horizontally with no rounding error: the box is as wide as the computed
    view width and the horizontal translation is a zero. *)
Example f32_app_view_centered :
  let w := F32.div (F32.sub (F32.of_int 1000) (F32.of_int (-1000))) f32_0_7 in
  let M := F32.GetViewMatrix appViewSim32 (F32.div (F32.of_int 4) (F32.of_int 3)) F32.zero in
  F32.x4 (F32.col3 M) = S754_zero true
  /\ F32.x4 (F32.col0 M) = F32.div F32.two w.
Proof. split; vm_compute; reflexivity. Qed.

(** ** The capacity test, as computed *)




(** ** A grid of one particle, as computed *)

(** A 1 x 1 request ignores the spacing argument: whatever spacing is passed,
    the store, the acceptance and the rejection are the same.  It is accepted
    exactly when the shrunk rectangle is not empty, the computed diameter
    does not exceed the computed available space on either axis and the
    capacity test does not fire; it then stores a single particle, of the
    requested mass, at the start position plus a zero offset. *)
Theorem f32_AddParticleGrid_single (sim : F32.SimulationSystem)
    (bottomLeft topRight spacing : F32.vec2) (m : F32.float) :
  let diameter := F32.mul F32.two (F32.m_ParticleRadius sim) in
  let gBL := F32.gridBottomLeft sim bottomLeft in
  let gTR := F32.gridTopRight sim topRight in
  let avail := F32.availableSpace sim bottomLeft topRight in
  let start := F32.startPos sim 1 1 bottomLeft topRight spacing in
  let r := F32.AddParticleGrid sim 1 1 bottomLeft topRight spacing m in
  (forall spacing',
     fst (F32.AddParticleGrid sim 1 1 bottomLeft topRight spacing' m) = fst r
     /\ F32.accepted (F32.AddParticleGrid sim 1 1 bottomLeft topRight spacing' m)
        = F32.accepted r
     /\ F32.rejected (F32.AddParticleGrid sim 1 1 bottomLeft topRight spacing' m)
        = F32.rejected r)
  /\ (F32.accepted r = true
      <-> F32.leb (F32.x gTR) (F32.x gBL) = false
          /\ F32.leb (F32.y gTR) (F32.y gBL) = false
          /\ F32.ltb (F32.x avail) (F32.mul F32.one diameter) = false
          /\ F32.ltb (F32.y avail) (F32.mul F32.one diameter) = false
          /\ F32.ltb (F32.mul (F32.div (F32.y avail) diameter)
                              (F32.div (F32.x avail) diameter)) F32.one = false)
  /\ (F32.accepted r = true ->
      F32.appended sim (fst r)
      = [F32.mkParticle
           (F32.mkvec2 (F32.add (F32.x start) F32.zero) (F32.add (F32.y start) F32.zero))
           m]
      /\ F32.x start
         = (if F32.ltb F32.zero (F32.x avail)
            then F32.add (F32.x gBL) (F32.div (F32.x avail) F32.two)
            else F32.x gBL)
      /\ F32.y start
         = (if F32.ltb F32.zero (F32.y avail)
            then F32.add (F32.y gBL) (F32.div (F32.y avail) F32.two)
            else F32.y gBL)).
Proof.
  intros diameter gBL gTR avail start r. split; [|split].
  - intros spacing'. subst r. unfold F32.AddParticleGrid. cbv zeta.
    change (F32.requiredWidth sim 1 spacing') with (F32.requiredWidth sim 1 spacing).
    change (F32.requiredHeight sim 1 spacing') with (F32.requiredHeight sim 1 spacing).
    change (F32.finalSpacing sim 1 1 bottomLeft topRight spacing')
      with (F32.finalSpacing sim 1 1 bottomLeft topRight spacing).
    change (F32.cellPosition sim 1 1 bottomLeft topRight spacing')
      with (F32.cellPosition sim 1 1 bottomLeft topRight spacing).
    repeat match goal with
    | |- context [if ?b then _ else _] => destruct b
    end; repeat split.
  - subst r. rewrite F32_accepted_iff_gridFits. unfold F32.gridFits.
    change (F32.requiredWidth sim 1 spacing) with (F32.mul F32.one diameter).
    change (F32.requiredHeight sim 1 spacing) with (F32.mul F32.one diameter).
    change (F32.tooManyParticles sim 1 1 bottomLeft topRight)
      with (F32.ltb (F32.mul (F32.div (F32.y avail) diameter)
                             (F32.div (F32.x avail) diameter)) F32.one).
    fold gBL gTR avail. split.
    + intros (_ & _ & Hx & Hy & Hw & Hh & Ht & _). repeat split; assumption.
    + intros (Hx & Hy & Hw & Hh & Ht).
      repeat split; try lia; assumption.
  - intros Hacc.
    destruct (F32_accepted_grid sim 1 1 bottomLeft topRight spacing m Hacc)
      as (Hfit & Happ).
    fold r in Happ. rewrite Happ. split; [reflexivity|].
    subst start. unfold F32.startPos. cbv zeta. cbn [F32.x F32.y].
    change (F32.gridSize sim 1 1 bottomLeft topRight spacing)
      with (F32.mkvec2 F32.zero F32.zero).
    cbn [F32.x F32.y]. fold avail gBL. rewrite !F32_sub_zero. split; reflexivity.
Qed.

(** ** What the messages say is what happened, as computed *)

Ltac f32_message_cases :=
  repeat match goal with
  | H : In _ (_ :: _) |- _ => destruct H as [H|H]
  | H : In _ [] |- _ => destruct H
  | H : _ = _ :> F32.Message |- _ => inversion H; clear H
  end.

(** Every line [AddParticleGrid] writes reports the request's own values and
    a test that did fire: non-positive counts; an empty shrunk rectangle; a
    computed required size that exceeds the computed available size printed
    with it on some axis; a computed capacity below [rows * cols] (as an
    [int] product) after the earlier tests passed; a final spacing printed
    below the minimum printed on an axis with more than one particle.  The
    available space is printed only after the emptiness and footprint tests
    passed, the success line only with [rows * cols] particles appended, and
    any error line leaves the store as it was. *)
Theorem f32_AddParticleGrid_messages_truthful (sim : F32.SimulationSystem) (rows cols : Z)
    (bottomLeft topRight spacing : F32.vec2) (m : F32.float) :
  let radius := F32.m_ParticleRadius sim in
  let gBL := F32.gridBottomLeft sim bottomLeft in
  let gTR := F32.gridTopRight sim topRight in
  let avail := F32.availableSpace sim bottomLeft topRight in
  let passed :=
    (0 < rows)%Z /\ (0 < cols)%Z
    /\ F32.leb (F32.x gTR) (F32.x gBL) = false /\ F32.leb (F32.y gTR) (F32.y gBL) = false
    /\ F32.ltb (F32.x avail) (F32.requiredWidth sim cols spacing) = false
    /\ F32.ltb (F32.y avail) (F32.requiredHeight sim rows spacing) = false in
  let r := F32.AddParticleGrid sim rows cols bottomLeft topRight spacing m in
  (forall rs cs, In (F32.ErrNotPositive rs cs) (snd r) ->
     rs = rows /\ cs = cols /\ ((rows <= 0)%Z \/ (cols <= 0)%Z))
  /\ (In F32.ErrNoSpace (snd r) ->
      (0 < rows)%Z /\ (0 < cols)%Z
      /\ (F32.leb (F32.x gTR) (F32.x gBL) = true \/ F32.leb (F32.y gTR) (F32.y gBL) = true))
  /\ (forall rs cs rad sp req av, In (F32.ErrNotFit rs cs rad sp req av) (snd r) ->
        rs = rows /\ cs = cols /\ rad = radius /\ sp = spacing /\ av = avail
        /\ req = F32.mkvec2 (F32.requiredWidth sim cols spacing)
                            (F32.requiredHeight sim rows spacing)
        /\ (F32.ltb (F32.x av) (F32.x req) = true \/ F32.ltb (F32.y av) (F32.y req) = true))
  /\ (In F32.ErrTooMany (snd r) ->
      passed
      /\ F32.ltb (F32.mul (F32.div (F32.y avail) (F32.mul F32.two radius))
                          (F32.div (F32.x avail) (F32.mul F32.two radius)))
                 (F32.of_int (int_mul rows cols)) = true)
  /\ (forall fs mn, In (F32.ErrOverlap fs mn) (snd r) ->
        passed
        /\ fs = F32.finalSpacing sim rows cols bottomLeft topRight spacing
        /\ mn = F32.mul F32.two radius
        /\ (((1 < cols)%Z /\ F32.ltb (F32.x fs) mn = true)
            \/ ((1 < rows)%Z /\ F32.ltb (F32.y fs) mn = true)))
  /\ (forall av, In (F32.OutAvailable av) (snd r) -> av = avail /\ passed)
  /\ (forall rs cs, In (F32.OutCreated rs cs) (snd r) ->
        rs = rows /\ cs = cols
        /\ Z.of_nat (length (F32.appended sim (fst r))) = (rs * cs)%Z)
  /\ (forall msg, In msg (snd r) -> F32.is_error msg = true ->
        fst r = sim /\ F32.appended sim (fst r) = []).
Proof.
  intros radius gBL gTR avail passed r.
  assert (Hlen : forall rs cs, In (F32.OutCreated rs cs) (snd r) ->
            Z.of_nat (length (F32.appended sim (fst r))) = (rows * cols)%Z).
  { intros rs cs Hin.
    assert (Hacc : F32.accepted r = true).
    { unfold F32.accepted. apply existsb_exists. eexists. split; [exact Hin | reflexivity]. }
    destruct (F32_accepted_grid sim rows cols bottomLeft topRight spacing m Hacc)
      as ((Hrows & Hcols & _) & Happ).
    fold r in Happ. rewrite Happ, F32_length_gridParticles. nia. }
  assert (Hrej : forall msg, In msg (snd r) -> F32.is_error msg = true ->
            fst r = sim /\ F32.appended sim (fst r) = []).
  { intros msg Hin Herr.
    assert (Hr : F32.rejected r = true).
    { unfold F32.rejected. apply existsb_exists. eexists. split; [exact Hin | exact Herr]. }
    destruct (F32_AddParticleGrid_cases sim rows cols bottomLeft topRight spacing m)
      as [(_ & _ & Hs & _) | (_ & Hn & _)].
    - fold r in Hs. rewrite Hs. split; [reflexivity | apply F32_appended_same].
    - fold r in Hn. congruence. }
  revert Hlen Hrej. subst r passed. unfold F32.AddParticleGrid. cbv zeta.
  fold gBL gTR.
  destruct ((rows <=? 0)%Z || (cols <=? 0)%Z) eqn:E1.
  { intros _ Hrej. repeat split; intros; cbn [snd] in *;
      try (eapply Hrej; eassumption); f32_message_cases; subst; auto.
    apply orb_true_iff in E1. destruct E1; prop_of_tests; lia. }
  apply orb_false_iff in E1. destruct E1 as [E1r E1c]. prop_of_tests.
  destruct (F32.leb _ _ || F32.leb _ _) eqn:E2.
  { intros _ Hrej. repeat split; intros; cbn [snd] in *;
      try (eapply Hrej; eassumption); f32_message_cases; subst; auto; try lia.
    apply orb_true_iff in E2. exact E2. }
  apply orb_false_iff in E2. destruct E2 as [E2x E2y].
  destruct (F32.ltb _ _ || F32.ltb _ _) eqn:E3.
  { intros _ Hrej. repeat split; intros; cbn [snd] in *;
      try (eapply Hrej; eassumption); f32_message_cases; subst; auto.
    apply orb_true_iff in E3. exact E3. }
  apply orb_false_iff in E3. destruct E3 as [E3x E3y].
  destruct (F32.tooManyParticles _ _ _ _ _) eqn:E4.
  { intros _ Hrej. repeat split; intros; cbn [snd] in *;
      try (eapply Hrej; eassumption); f32_message_cases; subst; auto; try lia. }
  destruct ((_ && _) || (_ && _)) eqn:E5.
  { intros _ Hrej. repeat split; intros; cbn [snd] in *;
      try (eapply Hrej; eassumption); f32_message_cases; subst; auto; try lia.
    apply orb_true_iff in E5.
    destruct E5 as [E5|E5]; apply andb_true_iff in E5; destruct E5 as [Ec Es];
      prop_of_tests; [left | right]; split; assumption. }
  intros Hlen Hrej. repeat split; intros; cbn [snd] in *;
    try (eapply Hrej; eassumption); f32_message_cases; subst; auto; try lia.
  eapply Hlen. right. left. reflexivity.
Qed.

(** ** A requested spacing is a center-to-center step, as computed *)



(** ** Corners that are not numbers *)

Lemma F32_In_gridParticles (rows cols : Z) (pos : Z -> Z -> F32.vec2) (m : F32.float)
    (p : F32.Particle) :
  In p (F32.gridParticles rows cols pos m) ->
  exists row col, p = F32.mkParticle (pos row col) m.
Proof.
  unfold F32.gridParticles, F32.rowParticles. intros Hin.
  apply in_flat_map in Hin. destruct Hin as (row & _ & Hin).
  apply in_map_iff in Hin. destruct Hin as (col & Hp & _).
  exists row, col. now symmetry.
Qed.

Lemma F32_ltb_nan_r (a : F32.float) : F32.ltb a S754_nan = false.
Proof. destruct a as [[|]|[|]| |[|] m e]; reflexivity. Qed.

(** No test of [AddParticleGrid] fires on a NaN: a request with positive
    counts, both corners NaN and a requested spacing that is not positive
    passes every validation, whatever the domain and the radius, and appends
    [rows * cols] particles of the requested mass, every one at
    (NaN, NaN). *)
Theorem f32_AddParticleGrid_nan_corners (sim : F32.SimulationSystem) (rows cols : Z)
    (spacing : F32.vec2) (m : F32.float) :
  (0 < rows)%Z -> (0 < cols)%Z ->
  F32.ltb F32.zero (F32.x spacing) = false ->
  F32.ltb F32.zero (F32.y spacing) = false ->
  let corner := F32.mkvec2 S754_nan S754_nan in
  let r := F32.AddParticleGrid sim rows cols corner corner spacing m in
  F32.accepted r = true
  /\ F32.rejected r = false
  /\ Z.of_nat (length (F32.appended sim (fst r))) = (rows * cols)%Z
  /\ (forall p, In p (F32.appended sim (fst r)) ->
        F32.position p = corner /\ F32.mass p = m).
Proof.
  intros Hrows Hcols Hsx Hsy corner r.
  assert (Hbl : F32.gridBottomLeft sim corner = corner) by reflexivity.
  assert (Htr : F32.gridTopRight sim corner = corner).
  { unfold F32.gridTopRight, F32.vmin, F32.fmin. cbn [F32.x F32.y corner].
    now rewrite !F32_ltb_nan_r. }
  assert (Hav : F32.availableSpace sim corner corner = corner).
  { unfold F32.availableSpace. now rewrite Hbl, Htr. }
  assert (Hfit : F32.gridFits sim rows cols corner corner spacing).
  { unfold F32.gridFits, F32.tooManyParticles, F32.finalSpacing. cbv zeta.
    rewrite Hav, Hbl, Htr. cbn [F32.x F32.y corner]. rewrite Hsx, Hsy.
    split; [assumption|]. split; [assumption|].
    do 5 (split; [reflexivity|]). split.
    - intros Hc. assert (E : (cols =? 1)%Z = false) by (apply Z.eqb_neq; lia).
      rewrite E. reflexivity.
    - intros Hr. assert (E : (rows =? 1)%Z = false) by (apply Z.eqb_neq; lia).
      rewrite E. reflexivity. }
  apply (F32_accepted_iff_gridFits sim rows cols corner corner spacing m) in Hfit.
  fold r in Hfit.
  destruct (F32_accepted_grid sim rows cols corner corner spacing m Hfit) as (_ & Happ).
  fold r in Happ.
  assert (Hrej : F32.rejected r = false).
  { destruct (F32_AddParticleGrid_cases sim rows cols corner corner spacing m)
      as [(_ & Hn & _) | (_ & Hrej & _)].
    - fold r in Hn. congruence.
    - exact Hrej. }
  split; [exact Hfit|]. split; [exact Hrej|]. split.
  - rewrite Happ, F32_length_gridParticles. nia.
  - intros p Hin. rewrite Happ in Hin.
    apply F32_In_gridParticles in Hin. destruct Hin as (row & col & ->).
    split; [|reflexivity]. cbn [F32.position].
    unfold F32.cellPosition, F32.startPos. cbv zeta.
    rewrite Hav, Hbl. cbn [F32.x F32.y corner].
    rewrite !F32_ltb_nan_r. reflexivity.
Qed.

Lemma f32_AddParticleGrid_nan_corners_witness :
  F32.accepted (F32.AddParticleGrid appSim32 2 3 (F32.mkvec2 S754_nan S754_nan)
                  (F32.mkvec2 S754_nan S754_nan) (f32vec 0 0) F32.one) = true.
Proof.
  refine (proj1 (f32_AddParticleGrid_nan_corners appSim32 2 3 (f32vec 0 0) F32.one _ _ _ _));
    [lia | lia | vm_compute; reflexivity | vm_compute; reflexivity].
Defined.

(** ** The two axes are treated alike *)

Lemma F32_tooManyParticles_transpose (sim : F32.SimulationSystem) (rows cols : Z)
    (bottomLeft topRight : F32.vec2) :
  F32.tooManyParticles (transpose sim) cols rows (swap bottomLeft) (swap topRight)
  = F32.tooManyParticles sim rows cols bottomLeft topRight.
Proof.
  unfold F32.tooManyParticles. cbv zeta.
  rewrite F32_mul_comm. unfold int_mul. rewrite (Z.mul_comm cols rows). reflexivity.
Qed.

Lemma F32_gridFits_transpose (sim : F32.SimulationSystem) (rows cols : Z)
    (bottomLeft topRight spacing : F32.vec2) :
  F32.gridFits (transpose sim) cols rows (swap bottomLeft) (swap topRight) (swap spacing)
  <-> F32.gridFits sim rows cols bottomLeft topRight spacing.
Proof.
  unfold F32.gridFits. rewrite F32_tooManyParticles_transpose.
  change (F32.x (F32.gridTopRight (transpose sim) (swap topRight)))
    with (F32.y (F32.gridTopRight sim topRight)).
  change (F32.y (F32.gridTopRight (transpose sim) (swap topRight)))
    with (F32.x (F32.gridTopRight sim topRight)).
  change (F32.x (F32.gridBottomLeft (transpose sim) (swap bottomLeft)))
    with (F32.y (F32.gridBottomLeft sim bottomLeft)).
  change (F32.y (F32.gridBottomLeft (transpose sim) (swap bottomLeft)))
    with (F32.x (F32.gridBottomLeft sim bottomLeft)).
  change (F32.x (F32.availableSpace (transpose sim) (swap bottomLeft) (swap topRight)))
    with (F32.y (F32.availableSpace sim bottomLeft topRight)).
  change (F32.y (F32.availableSpace (transpose sim) (swap bottomLeft) (swap topRight)))
    with (F32.x (F32.availableSpace sim bottomLeft topRight)).
  change (F32.requiredWidth (transpose sim) rows (swap spacing))
    with (F32.requiredHeight sim rows spacing).
  change (F32.requiredHeight (transpose sim) cols (swap spacing))
    with (F32.requiredWidth sim cols spacing).
  change (F32.x (F32.finalSpacing (transpose sim) cols rows (swap bottomLeft) (swap topRight)
                   (swap spacing)))
    with (F32.y (F32.finalSpacing sim rows cols bottomLeft topRight spacing)).
  change (F32.y (F32.finalSpacing (transpose sim) cols rows (swap bottomLeft) (swap topRight)
                   (swap spacing)))
    with (F32.x (F32.finalSpacing sim rows cols bottomLeft topRight spacing)).
  change (F32.minRequiredSpacing (transpose sim)) with (F32.minRequiredSpacing sim).
  tauto.
Qed.

(** [AddParticleGrid] runs the same computation on x with [cols] as on y
    with [rows]: exchanging the two axes of the domain, of the requested
    rectangle and of the spacing, together with the two counts, changes
    neither the acceptance nor the rejection, and an accepted request then
    stores, for every cell, the particle of the original grid with its two
    coordinates exchanged, at index [col * rows + row] instead of
    [row * cols + col]. *)
Theorem f32_AddParticleGrid_axes_alike (sim : F32.SimulationSystem) (rows cols : Z)
    (bottomLeft topRight spacing : F32.vec2) (m : F32.float) :
  let r := F32.AddParticleGrid sim rows cols bottomLeft topRight spacing m in
  let r' := F32.AddParticleGrid (transpose sim) cols rows (swap bottomLeft) (swap topRight)
              (swap spacing) m in
  F32.accepted r' = F32.accepted r
  /\ F32.rejected r' = F32.rejected r
  /\ (F32.accepted r = true ->
      forall row col, (0 <= row < rows)%Z -> (0 <= col < cols)%Z ->
        exists p,
          nth_error (F32.appended sim (fst r)) (Z.to_nat (row * cols + col)) = Some p
          /\ nth_error (F32.appended (transpose sim) (fst r')) (Z.to_nat (col * rows + row))
             = Some (F32.mkParticle (swap (F32.position p)) (F32.mass p))).
Proof.
  intros r r'.
  pose proof (F32_gridFits_transpose sim rows cols bottomLeft topRight spacing) as Hiff.
  pose proof (F32_accepted_iff_gridFits sim rows cols bottomLeft topRight spacing m) as Ha.
  pose proof (F32_accepted_iff_gridFits (transpose sim) cols rows (swap bottomLeft)
                (swap topRight) (swap spacing) m) as Ha'.
  fold r in Ha. fold r' in Ha'.
  assert (Eacc : F32.accepted r' = F32.accepted r).
  { destruct (F32.accepted r) eqn:E, (F32.accepted r') eqn:E'; try reflexivity.
    - apply Ha', Hiff, Ha. reflexivity.
    - symmetry. apply Ha, Hiff, Ha'. reflexivity. }
  split; [exact Eacc|]. split.
  - destruct (F32_AddParticleGrid_cases sim rows cols bottomLeft topRight spacing m)
      as [(Hr & Hn & _) | (Hy & Hr & _)];
    destruct (F32_AddParticleGrid_cases (transpose sim) cols rows (swap bottomLeft)
                (swap topRight) (swap spacing) m)
      as [(Hr' & Hn' & _) | (Hy' & Hr' & _)];
    fold r in Hr, Hn || fold r in Hy, Hr; fold r' in Hr', Hn' || fold r' in Hy', Hr';
    congruence.
  - intros Hacc row col Hrow Hcol.
    assert (Hacc' : F32.accepted r' = true) by congruence.
    destruct (F32_accepted_grid sim rows cols bottomLeft topRight spacing m Hacc)
      as (_ & Happ).
    destruct (F32_accepted_grid (transpose sim) cols rows (swap bottomLeft)
                (swap topRight) (swap spacing) m Hacc') as (_ & Happ').
    fold r in Happ. fold r' in Happ'. rewrite Happ, Happ'.
    rewrite !F32_nth_error_gridParticles by assumption.
    eexists. split; reflexivity.
Qed.
